(** * Voice dashboard: session configuration resolver, recording
      lifecycle and activity log

    A shallow embedding of the stateful core of

    - [src/components/UnifiedDashboard.tsx] (the platform-detection effect,
      [addLog], [startRecording], [stopRecording], [handleBoardSelect],
      [handleToolChange], [handleConfigSave], [confirmSwitchApp] and the
      record button),
    - [src/components/VoiceManagerNew.tsx] (the same [addLog]),
    - [ConfigurationForm] ([handleSubmit], [isFormValid]),
    - [src/pages/ConfigureApp.tsx] ([handleSubmit]).

    React state, the two browser stores (localStorage and cookies), the
    interval timers and the calls made to outside collaborators are
    threaded through one explicit [State]; every handler is a function
    [State -> State] that reads the state of the render it was created in
    and composes the updates it queues.  Awaited collaborators (the audio
    recorder, the backend gateway) answer through an explicit outcome
    argument. *)

From Stdlib Require Import ZArith Lia List Ascii String Sorting.Sorted Sorting.Permutation.
From stdpp Require Import base strings pretty gmap list.

#[local] Set Warnings "-register-all".

(** ** JavaScript values *)

(** Whatever [JSON.parse] or router state can hand to the dashboard.  The
    source stores such values in [platformConfig] through unchecked casts,
    so the embedding keeps them untyped. *)
Inductive JsValue :=
| JUndefined
| JNull
| JBool (b : bool)
| JNum (n : Z)
| JStr (s : string)
| JArr (items : list JsValue)
| JObj (fields : gmap string JsValue).

(** [if (s)] on a string: the empty string is falsy. *)
Definition nonEmpty (s : string) : bool :=
  match s with EmptyString => false | String _ _ => true end.

(** [if (x)] on a [string | undefined] / [string | null]. *)
Definition truthyStr (o : option string) : bool :=
  match o with Some s => nonEmpty s | None => false end.

(** [if (v)] on an arbitrary value. *)
Definition truthy (v : JsValue) : bool :=
  match v with
  | JUndefined | JNull => false
  | JBool b => b
  | JNum n => negb (n =? 0)%Z
  | JStr s => nonEmpty s
  | JArr _ | JObj _ => true
  end.

(** [v[k]] for a value that is known to be an object; [undefined]
    otherwise. *)
Definition getField (v : JsValue) (k : string) : JsValue :=
  match v with
  | JObj o => default JUndefined (o !! k)
  | _ => JUndefined
  end.

(** A field that holds a non-empty string. *)
Definition isFilled (v : JsValue) : bool :=
  match v with JStr s => nonEmpty s | _ => false end.

(** An object literal whose fields are all strings, e.g. the form state
    of [ConfigurationForm] or [{ apiKey, token, boardId }]. *)
Definition strObj (o : gmap string string) : JsValue := JObj (JStr <$> o).

(** [c.toUpperCase()] on one ASCII character. *)
Definition upperAscii (c : ascii) : ascii :=
  let n := nat_of_ascii c in
  if (97 <=? n)%nat && (n <=? 122)%nat then ascii_of_nat (n - 32) else c.

(** [s.charAt(0).toUpperCase() + s.slice(1)]. *)
Definition capitalize (s : string) : string :=
  match s with
  | EmptyString => EmptyString
  | String c rest => String (upperAscii c) rest
  end.

(** ** The host environment *)

(** Built-ins of the JavaScript host that the source calls but does not
    define.  [toLocaleTimeString n] and [freshId n] are the clock reading
    and the generated id of the [n]-th [addLog] call of the session;
    [getTime ts] is [new Date(`1970-01-01 ${ts}`).getTime()], the key the
    log is sorted by.  It is a number for the strings the clock produces.
    On a runtime whose clock strings do not parse back, every key is
    [NaN], the comparator's result counts as [+0] everywhere, and the
    sort behaves as for a constant [getTime]. *)
Class Host := {
  JSON_parse : string -> option JsValue;
  JSON_stringify : JsValue -> string;
  toLocaleTimeString : nat -> string;
  freshId : nat -> string;
  getTime : string -> Z
}.

(** ** Activity log *)

Inductive LogType :=
| info | success | warning | error | voice | transcribed | task | due_date.

#[global] Instance LogType_eq_dec : EqDecision LogType.
Proof. solve_decision. Defined.

Record LogDetails := {
  transcription : option string;
  taskName : option string;
  taskStatus : option string;
  dueDate : option string
}.

Record LogEntry := {
  log_id : string;
  timestamp : string;
  log_type : LogType;
  message : string;
  details : option LogDetails
}.

(** The comparator handed to [Array.prototype.sort]:
    [(a, b) => timeB - timeA]. *)
Definition compareLogs `{Host} (a b : LogEntry) : Z :=
  (getTime (timestamp b) - getTime (timestamp a))%Z.

(** [Array.prototype.sort] is a stable sort; for a comparator that is a
    consistent ordering (as [timeB - timeA] is over numeric keys) its
    result is determined, and the insertion sort below computes it.  [insertBy] puts [x] in front of the first element
    it does not have to follow, so equal elements keep their order. *)
Fixpoint insertBy {A} (cmp : A -> A -> Z) (x : A) (l : list A) : list A :=
  match l with
  | [] => [x]
  | y :: l' => if (cmp x y <=? 0)%Z then x :: y :: l' else y :: insertBy cmp x l'
  end.

Definition sortBy {A} (cmp : A -> A -> Z) (l : list A) : list A :=
  foldr (insertBy cmp) [] l.

(** The updater passed to [setLogs]:
    [[newLog, ...prev].slice(0, 50)] followed by [.sort(...)]. *)
Definition updatedLogs `{Host} (newLog : LogEntry) (prev : list LogEntry)
  : list LogEntry :=
  sortBy compareLogs (take 50 (newLog :: prev)).

(** ** Dashboard state *)

Inductive RecordingStatus := idle | recording | processing.

(** [location.state] as the dashboard casts it:
    [{ platform?: string; token?: string; config?: any }]. *)
Record NavState := {
  nav_platform : option string;
  nav_token : option string;
  nav_config : JsValue
}.

(** Calls that leave the component, newest first in [effects]. *)
Inductive Effect :=
| ConsoleError (msg : string)
| Uncaught (what : string)
| DeviceStart
| DeviceStop
| SendAudio (audio : string) (platform : option string) (config : JsValue)
| Navigate (path : string) (payload : option NavState)
| Alert (msg : string).

(** The resolved session: [selectedTool], [platformConfig] ([JNull] for
    [null]) and [isConfigured]. *)
Record Session := {
  selectedTool : option string;
  platformConfig : JsValue;
  isConfigured : bool
}.

(** [recordingStatus], [recordingTime] and the ref [recordingInterval]. *)
Record Recorder := {
  recordingStatus : RecordingStatus;
  recordingTime : nat;
  recordingInterval : option nat
}.

Record Ui := {
  showConfigForm : bool;
  showSwitchConfirm : bool;
  latestResponse : string;
  selectedBoardId : option string
}.

(** The browser around the component: both stores, the table of live
    interval timers with the next handle [setInterval] returns, and the
    outgoing calls. *)
Record Browser := {
  localStorage : gmap string string;
  cookies : gmap string string;
  timers : gset nat;
  nextTimer : nat;
  effects : list Effect
}.

Record State := {
  session : Session;
  recorder : Recorder;
  ui : Ui;
  logs : list LogEntry;
  logCalls : nat;
  browser : Browser
}.

(** The [useState] initial values over a given browser. *)
Definition initialState (b : Browser) : State :=
  {| session := {| selectedTool := None; platformConfig := JNull;
                   isConfigured := false |};
     recorder := {| recordingStatus := idle; recordingTime := 0;
                    recordingInterval := None |};
     ui := {| showConfigForm := false; showSwitchConfirm := false;
              latestResponse := "How can I help you today?";
              selectedBoardId := None |};
     logs := [];
     logCalls := 0;
     browser := b |}.

Definition withSession (f : Session -> Session) (s : State) : State :=
  {| session := f (session s); recorder := recorder s; ui := ui s;
     logs := logs s; logCalls := logCalls s; browser := browser s |}.

Definition withRecorder (f : Recorder -> Recorder) (s : State) : State :=
  {| session := session s; recorder := f (recorder s); ui := ui s;
     logs := logs s; logCalls := logCalls s; browser := browser s |}.

Definition withUi (f : Ui -> Ui) (s : State) : State :=
  {| session := session s; recorder := recorder s; ui := f (ui s);
     logs := logs s; logCalls := logCalls s; browser := browser s |}.

Definition withBrowser (f : Browser -> Browser) (s : State) : State :=
  {| session := session s; recorder := recorder s; ui := ui s;
     logs := logs s; logCalls := logCalls s; browser := f (browser s) |}.

(** *** React setters *)

Definition setSelectedTool (v : option string) : State -> State :=
  withSession (fun x => {| selectedTool := v;
    platformConfig := platformConfig x; isConfigured := isConfigured x |}).

Definition setPlatformConfig (v : JsValue) : State -> State :=
  withSession (fun x => {| selectedTool := selectedTool x;
    platformConfig := v; isConfigured := isConfigured x |}).

Definition setIsConfigured (v : bool) : State -> State :=
  withSession (fun x => {| selectedTool := selectedTool x;
    platformConfig := platformConfig x; isConfigured := v |}).

Definition setRecordingStatus (v : RecordingStatus) : State -> State :=
  withRecorder (fun x => {| recordingStatus := v;
    recordingTime := recordingTime x;
    recordingInterval := recordingInterval x |}).

(** [setRecordingTime(prev => f(prev))]; a constant is [fun _ => n]. *)
Definition setRecordingTime (f : nat -> nat) : State -> State :=
  withRecorder (fun x => {| recordingStatus := recordingStatus x;
    recordingTime := f (recordingTime x);
    recordingInterval := recordingInterval x |}).

(** [recordingInterval.current = v]. *)
Definition assignRecordingInterval (v : option nat) : State -> State :=
  withRecorder (fun x => {| recordingStatus := recordingStatus x;
    recordingTime := recordingTime x; recordingInterval := v |}).

Definition setShowConfigForm (v : bool) : State -> State :=
  withUi (fun x => {| showConfigForm := v;
    showSwitchConfirm := showSwitchConfirm x;
    latestResponse := latestResponse x;
    selectedBoardId := selectedBoardId x |}).

Definition setShowSwitchConfirm (v : bool) : State -> State :=
  withUi (fun x => {| showConfigForm := showConfigForm x;
    showSwitchConfirm := v;
    latestResponse := latestResponse x;
    selectedBoardId := selectedBoardId x |}).

Definition setLatestResponse (v : string) : State -> State :=
  withUi (fun x => {| showConfigForm := showConfigForm x;
    showSwitchConfirm := showSwitchConfirm x;
    latestResponse := v;
    selectedBoardId := selectedBoardId x |}).

Definition setSelectedBoardId (v : option string) : State -> State :=
  withUi (fun x => {| showConfigForm := showConfigForm x;
    showSwitchConfirm := showSwitchConfirm x;
    latestResponse := latestResponse x;
    selectedBoardId := v |}).

(** *** Browser operations *)

Definition withLocalStorage (f : gmap string string -> gmap string string)
  (b : Browser) : Browser :=
  {| localStorage := f (localStorage b); cookies := cookies b;
     timers := timers b; nextTimer := nextTimer b; effects := effects b |}.

Definition withCookies (f : gmap string string -> gmap string string)
  (b : Browser) : Browser :=
  {| localStorage := localStorage b; cookies := f (cookies b);
     timers := timers b; nextTimer := nextTimer b; effects := effects b |}.

Definition emitB (e : Effect) (b : Browser) : Browser :=
  {| localStorage := localStorage b; cookies := cookies b;
     timers := timers b; nextTimer := nextTimer b;
     effects := e :: effects b |}.

(** [localStorage.getItem(k)] (the [null] result is [None]). *)
Definition getItem (k : string) (s : State) : option string :=
  localStorage (browser s) !! k.

(** [localStorage.setItem(k, v)]. *)
Definition setItem (k v : string) : State -> State :=
  withBrowser (withLocalStorage (fun m => <[k := v]> m)).

(** [Cookies.get(k)]. *)
Definition Cookies_get (k : string) (s : State) : option string :=
  cookies (browser s) !! k.

(** [Cookies.set(k, v, { expires: 365 * 50 })]; the fifty-year expiry is
    never reached. *)
Definition Cookies_set (k v : string) : State -> State :=
  withBrowser (withCookies (fun m => <[k := v]> m)).

(** [Cookies.remove(k)]. *)
Definition Cookies_remove (k : string) : State -> State :=
  withBrowser (withCookies (fun m => delete k m)).

Definition emit (e : Effect) : State -> State := withBrowser (emitB e).

(** [const h = setInterval(tick, 1000)]: a fresh handle becomes live. *)
Definition setInterval (s : State) : nat * State :=
  let h := nextTimer (browser s) in
  (h, withBrowser (fun b =>
        {| localStorage := localStorage b; cookies := cookies b;
           timers := {[h]} ∪ timers b; nextTimer := S h;
           effects := effects b |}) s).

(** [clearInterval(h)]. *)
Definition clearInterval (h : nat) : State -> State :=
  withBrowser (fun b =>
    {| localStorage := localStorage b; cookies := cookies b;
       timers := timers b ∖ {[h]}; nextTimer := nextTimer b;
       effects := effects b |}).

(** Statement sequencing for handlers: [f ;; g] runs [f], then [g]. *)
Definition andThen (f g : State -> State) : State -> State :=
  fun s => g (f s).

Declare Scope handler_scope.
Delimit Scope handler_scope with handler.
Notation "f ;; g" := (andThen f g)
  (at level 100, g at level 200, right associativity) : handler_scope.
Local Open Scope handler_scope.

Definition skip : State -> State := fun s => s.

(** [if (c) { f }]. *)
Definition when (c : bool) (f : State -> State) : State -> State :=
  if c then f else skip.

(** *** addLog (UnifiedDashboard.tsx 198-219, VoiceManagerNew.tsx 41-61) *)

(** The [newLog] object built by the [n]-th call. *)
Definition newLog `{Host} (n : nat) (type : LogType) (msg : string)
  (d : option LogDetails) : LogEntry :=
  {| log_id := freshId n; timestamp := toLocaleTimeString n;
     log_type := type; message := msg; details := d |}.

Definition addLog `{Host} (type : LogType) (msg : string)
  (d : option LogDetails) (s : State) : State :=
  {| session := session s; recorder := recorder s; ui := ui s;
     logs := updatedLogs (newLog (logCalls s) type msg d) (logs s);
     logCalls := S (logCalls s);
     browser := browser s |}.

(** [a === b] on strings, and [x === "lit"] for an [x] that may be
    [null] or [undefined]. *)
Notation "a === b" := (String.eqb a b) (at level 70, no associativity).

Definition isStr (o : option string) (lit : string) : bool :=
  match o with Some v => v === lit | None => false end.

(** ** Recording lifecycle (UnifiedDashboard.tsx 221-289) *)

(** How an awaited promise of a collaborator settles. *)
Inductive Awaited (A : Type) :=
| Resolved (a : A)
| Rejected (msg : string).
Arguments Resolved {A} a.
Arguments Rejected {A} msg.

(** One element of the gateway's [results] array and the response body,
    typed as the gateway contract gives them. *)
Record TaskResult := {
  r_success : bool;
  r_operation : option string;
  r_task : option string;
  r_error : option string
}.

(** An element of [results] as the handler meets it: an object with the
    contract's fields, or [null] / [undefined], on which reading
    [result.success] throws a TypeError with that message. *)
Inductive ResultItem :=
| Item (r : TaskResult)
| NullItem (message : string).

Record GatewayData := {
  transcript : option string;
  results : option (list ResultItem)
}.

(** What [sendAudioToBackend] followed by [res.json()] comes to: the call
    itself fails, the body does not parse, the body parses to [null] (so
    that reading [data.transcript] throws a TypeError with that message),
    or a body arrives. *)
Inductive GatewayOutcome :=
| TransportFailure (msg : string)
| BodyUnparseable
| BodyNull (message : string)
| Body (data : GatewayData).

Definition startRecording `{Host} (dev : Awaited unit) (s : State) : State :=
  let s0 := emit DeviceStart s in
  match dev with
  | Resolved _ =>
      let s1 := (setRecordingStatus recording ;;
                 setRecordingTime (fun _ => 0) ;;
                 addLog info "Listening..." None) s0 in
      let '(h, s2) := setInterval s1 in
      assignRecordingInterval (Some h) s2
  | Rejected msg =>
      addLog error ("Failed to start recording: " +:+ msg) None s0
  end.

(** The callback handed to [setInterval]; it only runs while its handle is
    live in the timer table. *)
Definition tick (h : nat) (s : State) : State :=
  if decide (h ∈ timers (browser s))
  then setRecordingTime (fun prev => prev + 1) s
  else s.

(** [`${x}`] for an optional string. *)
Definition templ (o : option string) : string :=
  match o with Some x => x | None => "undefined" end.

Definition taskMessage (r : TaskResult) : string :=
  "Task " +:+
  (if isStr (r_operation r) "create" then "created"
   else templ (r_operation r)) +:+
  (match r_task r with
   | Some t => if nonEmpty t then ": " +:+ t else ""
   | None => ""
   end).

Definition failureMessage (r : TaskResult) : string :=
  "Task operation failed" +:+
  (match r_task r with
   | Some t => if nonEmpty t then " for: " +:+ t else ""
   | None => ""
   end) +:+
  (match r_error r with
   | Some e => if nonEmpty e then " - " +:+ e else ""
   | None => ""
   end).

(** The body of [data.results.forEach]. *)
Definition logResult `{Host} (r : TaskResult) : State -> State :=
  if r_success r
  then addLog task (taskMessage r)
         (Some {| transcription := None; taskName := r_task r;
                  taskStatus := r_operation r; dueDate := None |})
  else addLog error (failureMessage r) None.

(** [stopRecording] from the point where the recorder handed over the
    audio up to the suspension on [sendAudioToBackend].  [render] is the
    state of the render the handler closed over: [selectedTool] and
    [platformConfig] are read from it. *)
Definition stopRecording_dispatch `{Host} (audioBlob : string)
  (render : State) : State -> State :=
  setRecordingStatus idle ;;
  addLog success "Processing..." None ;;
  (fun s => match recordingInterval (recorder s) with
            | Some h => (clearInterval h ;; assignRecordingInterval None) s
            | None => s
            end) ;;
  setRecordingTime (fun _ => 0) ;;
  addLog voice "Voice received" None ;;
  emit (SendAudio audioBlob (selectedTool (session render))
          (platformConfig (session render))).

(** [data.results.forEach(...)]: an element that throws ends the loop in
    the [catch] of lines 282-284, after the entries already added. *)
Fixpoint forEachResult `{Host} (rs : list ResultItem) (s : State) : State :=
  match rs with
  | [] => s
  | Item r :: rest => forEachResult rest (logResult r s)
  | NullItem message :: _ =>
      addLog error ("Failed to send audio: " +:+ message) None s
  end.

(** [stopRecording] after the gateway call has settled. *)
Definition stopRecording_settle `{Host} (gw : GatewayOutcome)
  : State -> State :=
  match gw with
  | TransportFailure msg => addLog error ("Failed to send audio: " +:+ msg) None
  | BodyUnparseable =>
      addLog error "Failed to parse backend response as JSON" None
  | BodyNull message =>
      addLog error ("Failed to send audio: " +:+ message) None
  | Body data =>
      (match transcript data with
       | Some t =>
           when (nonEmpty t)
             (addLog transcribed ("Transcribed: " +:+ t) None ;;
              setLatestResponse t)
       | None => skip
       end) ;;
      (match results data with
       | Some rs => forEachResult rs
       | None => skip
       end)
  end.

Definition stopRecording `{Host} (dev : Awaited string) (gw : GatewayOutcome)
  (s : State) : State :=
  let s0 := emit DeviceStop s in
  match dev with
  | Resolved audioBlob =>
      (stopRecording_dispatch audioBlob s ;; stopRecording_settle gw) s0
  | Rejected msg =>
      (addLog error ("Failed to stop recording: " +:+ msg) None ;;
       setRecordingStatus idle) s0
  end.

(** What the collaborators answer during one click. *)
Record Env := {
  startOutcome : Awaited unit;
  stopOutcome : Awaited string;
  gateway : GatewayOutcome
}.

(** The record button (UnifiedDashboard.tsx 482-492):
    [onClick={recordingStatus === 'idle' ? startRecording : stopRecording}]
    with [disabled={!isConfigured}]; a disabled button runs no handler. *)
Definition onRecordButtonClick `{Host} (env : Env) (s : State) : State :=
  if negb (isConfigured (session s)) then s
  else match recordingStatus (recorder s) with
       | idle => startRecording (startOutcome env) s
       | _ => stopRecording (stopOutcome env) (gateway env) s
       end.

(** ** Configuration resolver (UnifiedDashboard.tsx 73-155) *)

(** A [string | undefined] that passes [if (x)], with its value. *)
Definition filled (o : option string) : option string :=
  match o with
  | Some v => if nonEmpty v then Some v else None
  | None => None
  end.

(** Lines 152-154: nothing found. *)
Definition noConfiguration `{Host} : State -> State :=
  setShowConfigForm true ;;
  addLog info "Voice Manager initialized - Please configure your platform" None.

(** The object literals [{ apiKey, token, boardId }],
    [{ apiKey, workspaceId }] and [{ personalAccessToken, projectId }]. *)
Definition trelloConfig (apiKey token boardId : string) : JsValue :=
  strObj (<["apiKey" := apiKey]> (<["token" := token]>
            (<["boardId" := boardId]> ∅))).

Definition linearConfig (apiKey workspaceId : string) : JsValue :=
  strObj (<["apiKey" := apiKey]> (<["workspaceId" := workspaceId]> ∅)).

Definition asanaConfig (personalAccessToken projectId : string) : JsValue :=
  strObj (<["personalAccessToken" := personalAccessToken]>
            (<["projectId" := projectId]> ∅)).

(** Lines 115-150: the legacy cookies. *)
Definition detectFromCookies `{Host} (s : State) : State :=
  let apiKey := Cookies_get "apiKey" s in
  let platform := Cookies_get "platform" s in
  match filled platform with
  | Some platform =>
      if platform === "trello" then
        let token := Cookies_get "token" s in
        let boardId := Cookies_get "boardId" s in
        match filled apiKey, filled token, filled boardId with
        | Some a, Some t, Some b =>
            (setSelectedTool (Some "trello") ;;
             setIsConfigured true ;;
             setPlatformConfig (trelloConfig a t b) ;;
             addLog info "Connected to Trello" None) s
        | _, _, _ => noConfiguration s
        end
      else if platform === "linear" then
        let workspaceId := Cookies_get "workspaceId" s in
        match filled apiKey, filled workspaceId with
        | Some a, Some w =>
            (setSelectedTool (Some "linear") ;;
             setIsConfigured true ;;
             setPlatformConfig (linearConfig a w) ;;
             addLog info "Connected to Linear" None) s
        | _, _ => noConfiguration s
        end
      else if platform === "asana" then
        let personalAccessToken := Cookies_get "personalAccessToken" s in
        let projectId := Cookies_get "projectId" s in
        match filled personalAccessToken, filled projectId with
        | Some t, Some p =>
            (setSelectedTool (Some "asana") ;;
             setIsConfigured true ;;
             setPlatformConfig (asanaConfig t p) ;;
             addLog info "Connected to Asana" None) s
        | _, _ => noConfiguration s
        end
      else noConfiguration s
  | None => noConfiguration s
  end.

(** Lines 101-113: the durable Asana record. *)
Definition detectAsana `{Host} (s : State) : State :=
  match filled (getItem "asana_config" s) with
  | Some raw =>
      match JSON_parse raw with
      | Some config =>
          (setSelectedTool (Some "asana") ;;
           setPlatformConfig config ;;
           setIsConfigured true ;;
           addLog info "Connected to Asana" None) s
      | None =>
          detectFromCookies
            (emit (ConsoleError "Error parsing Asana config:") s)
      end
  | None => detectFromCookies s
  end.

(** Lines 86-99: the durable Linear record. *)
Definition detectLinear `{Host} (s : State) : State :=
  match filled (getItem "linear_config" s) with
  | Some raw =>
      match JSON_parse raw with
      | Some config =>
          (setSelectedTool (Some "linear") ;;
           setPlatformConfig config ;;
           setIsConfigured true ;;
           addLog info "Connected to Linear" None) s
      | None =>
          detectAsana (emit (ConsoleError "Error parsing Linear config:") s)
      end
  | None => detectAsana s
  end.

(** The platform-detection effect, run with [location.state]. *)
Definition resolve `{Host} (state : option NavState) (s : State) : State :=
  match state with
  | Some st =>
      match filled (nav_platform st) with
      | Some platform =>
          (setSelectedTool (Some platform) ;;
           when (truthy (nav_config st))
             (setPlatformConfig (nav_config st) ;; setIsConfigured true) ;;
           addLog info ("Connected to " +:+ capitalize platform) None) s
      | None => detectLinear s
      end
  | None => detectLinear s
  end.

(** ** Session mutations of the dashboard *)

(** [handleBoardSelect] (lines 190-196).  ['apiKey' in platformConfig]
    holds for an object with that key, is false for an array, and throws
    on a truthy primitive, which ends the handler with [selectedBoardId]
    already queued; in none of the latter cases is the config touched. *)
Definition handleBoardSelect (value : string) (s : State) : State :=
  let s1 := setSelectedBoardId (Some value) s in
  if isStr (selectedTool (session s)) "trello" &&
     truthy (platformConfig (session s))
  then match platformConfig (session s) with
       | JObj o =>
           if bool_decide (is_Some (o !! "apiKey")) &&
              bool_decide (is_Some (o !! "token"))
           then (setPlatformConfig (JObj (<["boardId" := JStr value]> o)) ;;
                 Cookies_set "boardId" value) s1
           else s1
       | JArr _ => s1
       | _ => emit (Uncaught "TypeError: right-hand side of 'in'") s1
       end
  else s1.

(** [handleToolChange] (lines 291-327).  [JSON.parse] is not guarded
    here: if it throws, the handler ends with only [selectedTool] set. *)
Definition handleToolChange `{Host} (value : string) (s : State) : State :=
  let s1 := setSelectedTool (Some value) s in
  let fallthrough :=
    setShowConfigForm true ;;
    setIsConfigured false ;;
    addLog info ("Selected " +:+ capitalize value) None in
  let loaded (config : JsValue) (msg : string) :=
    setPlatformConfig config ;;
    setIsConfigured true ;;
    setShowConfigForm false ;;
    addLog info msg None in
  if value === "linear" then
    match filled (getItem "linear_config" s) with
    | Some raw =>
        match JSON_parse raw with
        | Some config =>
            loaded config "Loaded Linear config from localStorage" s1
        | None => emit (Uncaught "SyntaxError: JSON.parse") s1
        end
    | None => fallthrough s1
    end
  else if value === "asana" then
    match filled (getItem "asana_config" s) with
    | Some raw =>
        match JSON_parse raw with
        | Some config =>
            loaded config "Loaded Asana config from localStorage" s1
        | None => emit (Uncaught "SyntaxError: JSON.parse") s1
        end
    | None => fallthrough s1
    end
  else if value === "trello" then
    match filled (Cookies_get "apiKey" s), filled (Cookies_get "token" s),
          filled (Cookies_get "boardId" s) with
    | Some a, Some t, Some b =>
        loaded (trelloConfig a t b) "Loaded Trello config from cookies" s1
    | _, _, _ => fallthrough s1
    end
  else fallthrough s1.

(** [handleConfigSave] (lines 329-334).  With no tool selected the
    template adds [undefined + undefined], which prints as [NaN]. *)
Definition handleConfigSave `{Host} (config : JsValue) (s : State) : State :=
  (setPlatformConfig config ;;
   setIsConfigured true ;;
   setShowConfigForm false ;;
   addLog success
     (match selectedTool (session s) with
      | Some t => capitalize t
      | None => "NaN"
      end +:+ " configuration saved successfully") None) s.

(** [handleConfigCancel] (lines 336-341). *)
Definition handleConfigCancel (s : State) : State :=
  (setShowConfigForm false ;;
   when (negb (isConfigured (session s))) (setSelectedTool None)) s.

(** [confirmSwitchApp] (lines 347-364). *)
Definition confirmSwitchApp `{Host} : State -> State :=
  Cookies_remove "apiKey" ;;
  Cookies_remove "token" ;;
  Cookies_remove "boardId" ;;
  Cookies_remove "workspaceId" ;;
  Cookies_remove "personalAccessToken" ;;
  Cookies_remove "projectId" ;;
  Cookies_remove "platform" ;;
  setSelectedTool None ;;
  setIsConfigured false ;;
  setPlatformConfig JNull ;;
  setShowSwitchConfirm false ;;
  addLog info "Switched to different app" None ;;
  emit (Navigate "/select-app" None).

(** ** ConfigurationForm (the modal of the dashboard) *)

(** The form's [config] state is an object of string fields; which fields
    it has depends on the tool the form was mounted with, and the source
    reads it through casts, so a missing field reads as [undefined]. *)
Definition formField (config : gmap string string) (k : string) : string :=
  default "" (config !! k).

(** [isFormValid] (lines 84-96). *)
Definition isFormValid (selectedTool : string) (config : gmap string string)
  : bool :=
  if selectedTool === "trello" then
    truthyStr (config !! "apiKey") && truthyStr (config !! "token") &&
    truthyStr (config !! "boardId")
  else if selectedTool === "linear" then
    truthyStr (config !! "apiKey") && truthyStr (config !! "workspaceId")
  else if selectedTool === "asana" then
    truthyStr (config !! "personalAccessToken") &&
    truthyStr (config !! "projectId")
  else false.

(** [handleSubmit] (lines 47-78); [onConfigSave] is the dashboard's
    [handleConfigSave]. *)
Definition ConfigurationForm_handleSubmit `{Host} (selectedTool : string)
  (config : gmap string string) (s : State) : State :=
  if selectedTool === "trello" then
    if truthyStr (config !! "apiKey") && truthyStr (config !! "token") &&
       truthyStr (config !! "boardId")
    then (handleConfigSave (strObj config) ;;
          Cookies_set "apiKey" (formField config "apiKey") ;;
          Cookies_set "token" (formField config "token") ;;
          Cookies_set "boardId" (formField config "boardId") ;;
          Cookies_set "platform" "trello") s
    else s
  else if selectedTool === "linear" then
    if truthyStr (config !! "apiKey") && truthyStr (config !! "workspaceId")
    then (handleConfigSave (strObj config) ;;
          setItem "linear_config" (JSON_stringify (strObj config)) ;;
          Cookies_set "apiKey" (formField config "apiKey") ;;
          Cookies_set "workspaceId" (formField config "workspaceId") ;;
          Cookies_set "platform" "linear") s
    else s
  else if selectedTool === "asana" then
    if truthyStr (config !! "personalAccessToken") &&
       truthyStr (config !! "projectId")
    then (handleConfigSave (strObj config) ;;
          setItem "asana_config" (JSON_stringify (strObj config)) ;;
          Cookies_set "personalAccessToken"
            (formField config "personalAccessToken") ;;
          Cookies_set "projectId" (formField config "projectId") ;;
          Cookies_set "platform" "asana") s
    else s
  else s.

(** Submitting the modal: it is only mounted while
    [showConfigForm && selectedTool], with the dashboard's tool as its
    [selectedTool] prop. *)
Definition submitConfigurationForm `{Host} (config : gmap string string)
  (s : State) : State :=
  match filled (selectedTool (session s)) with
  | Some tool =>
      if showConfigForm (ui s)
      then ConfigurationForm_handleSubmit tool config s
      else s
  | None => s
  end.

(** ** ConfigureApp (src/pages/ConfigureApp.tsx) *)

Record FieldSpec := {
  field_name : string;
  field_label : string;
  field_required : bool
}.

(** [appConfigs[appId]] (lines 42-89), without the presentational
    members. *)
Definition appConfigs (appId : string) : option (list FieldSpec) :=
  if appId === "linear" then
    Some [ {| field_name := "apiKey"; field_label := "Linear API Key";
              field_required := true |};
           {| field_name := "workspaceId"; field_label := "Workspace ID";
              field_required := true |} ]
  else if appId === "asana" then
    Some [ {| field_name := "personalAccessToken";
              field_label := "Personal Access Token";
              field_required := true |};
           {| field_name := "projectId"; field_label := "Project ID";
              field_required := true |} ]
  else None.

Record ConfigurePage := {
  formData : gmap string string;
  isSubmitting : bool;
  isSuccess : bool
}.

(** [currentApp.fields.filter(f => f.required && !formData[f.name])
      .map(f => f.label)]. *)
Definition missingFields (fields : list FieldSpec)
  (formData : gmap string string) : list string :=
  field_label <$>
    List.filter (fun f => field_required f &&
                          negb (truthyStr (formData !! field_name f))) fields.

(** [list.join(', ')]. *)
Definition join (l : list string) : string := String.concat ", " l.

(** [handleSubmit] (lines 114-148), run to completion: the page after it
    and the browser after it.  [store] is how [localStorage.setItem]
    ends: if it throws, the [catch] block reports the error and the page
    neither succeeds nor navigates.  Without a [currentApp] the form is
    not rendered and nothing can be submitted. *)
Definition ConfigureApp_handleSubmit `{Host} (appId : string)
  (store : Awaited unit) (page : ConfigurePage) (b : Browser)
  : ConfigurePage * Browser :=
  match appConfigs appId with
  | None => (page, b)
  | Some fields =>
      let missing := missingFields fields (formData page) in
      if (0 <? length missing)%nat then
        ({| formData := formData page; isSubmitting := false;
            isSuccess := isSuccess page |},
         emitB (Alert ("Please fill in the following required fields: "
                       +:+ join missing)) b)
      else
        let record := JSON_stringify (strObj (formData page)) in
        let key := if appId === "linear" then Some "linear_config"
                   else if appId === "asana" then Some "asana_config"
                   else None in
        let succeed b1 :=
          ({| formData := formData page; isSubmitting := false;
              isSuccess := true |},
           emitB (Navigate "/dashboard"
                    (Some {| nav_platform := Some appId; nav_token := None;
                             nav_config := strObj (formData page) |})) b1) in
        match key, store with
        | Some k, Resolved _ =>
            succeed (withLocalStorage (fun m => <[k := record]> m) b)
        | Some _, Rejected _ =>
            ({| formData := formData page; isSubmitting := false;
                isSuccess := isSuccess page |},
             emitB (Alert "Failed to save configuration. Please try again.")
               (emitB (ConsoleError "Configuration error:") b))
        | None, _ => succeed b
        end
  end.

(** ** Vocabulary of the specification *)

(** *** Activity log *)

(** One [addLog] call: its arguments. *)
Record LogCall := {
  call_type : LogType;
  call_message : string;
  call_details : option LogDetails
}.

Definition addLogCall `{Host} (c : LogCall) : State -> State :=
  addLog (call_type c) (call_message c) (call_details c).

(** The entry a call builds in state [s]. *)
Definition callEntry `{Host} (c : LogCall) (s : State) : LogEntry :=
  newLog (logCalls s) (call_type c) (call_message c) (call_details c).

(** One step of the log: the log before a call, the entry the call
    builds, and the log after it. *)
Record LogStep := {
  before : list LogEntry;
  appended : LogEntry;
  after : list LogEntry
}.

(** The steps of a sequence of [addLog] calls, in order. *)
Fixpoint logSteps `{Host} (calls : list LogCall) (s : State)
  : list LogStep :=
  match calls with
  | [] => []
  | c :: rest =>
      let s' := addLogCall c s in
      {| before := logs s; appended := callEntry c s; after := logs s' |}
        :: logSteps rest s'
  end.

(** The ordering key of an entry and "newest first". *)
Definition timeKey `{Host} (e : LogEntry) : Z := getTime (timestamp e).

Definition newestFirst `{Host} (l : list LogEntry) : Prop :=
  StronglySorted (fun a b => (timeKey b <= timeKey a)%Z) l.

(** Going from [s] to [s'], exactly one entry, of type [info], was
    appended to the log. *)
Definition oneInfoEntry `{Host} (s s' : State) : Prop :=
  exists msg,
    logs s' = updatedLogs (newLog (logCalls s) info msg None) (logs s) /\
    logCalls s' = S (logCalls s).

(** *** Complete configurations *)

(** The fields of [TrelloConfig], [LinearConfig] and [AsanaConfig]. *)
Definition requiredFields (tool : string) : list string :=
  if tool === "trello" then ["apiKey"; "token"; "boardId"]
  else if tool === "linear" then ["apiKey"; "workspaceId"]
  else if tool === "asana" then ["personalAccessToken"; "projectId"]
  else [].

Definition hasVariant (tool : string) : bool :=
  (tool === "trello") || (tool === "linear") || (tool === "asana").

(** A config is present and every field its platform's variant requires
    is a non-empty string. *)
Definition isComplete (tool : option string) (config : JsValue) : bool :=
  match tool, config with
  | Some t, JObj _ =>
      hasVariant t &&
      forallb (fun k => isFilled (getField config k)) (requiredFields t)
  | _, _ => false
  end.

(** The invariant the specification gives for the resolved session. *)
Definition configuredIffComplete (s : State) : Prop :=
  isConfigured (session s) = true <->
  isComplete (selectedTool (session s)) (platformConfig (session s)) = true.

(** What every mutation of the session keeps: a configured session holds
    a complete config, an unconfigured one holds none. *)
Definition sessionInvariant (s : State) : Prop :=
  (isConfigured (session s) = true ->
   isComplete (selectedTool (session s)) (platformConfig (session s)) = true) /\
  (isConfigured (session s) = false -> platformConfig (session s) = JNull).

(** *** Persistence tiers *)

(** The cookie names of tier 3. *)
Definition tier3Keys : list string :=
  ["apiKey"; "token"; "boardId"; "workspaceId"; "personalAccessToken";
   "projectId"; "platform"].

Inductive Tier2Record := LinearRecord | AsanaRecord.

Definition storageKey (r : Tier2Record) : string :=
  match r with
  | LinearRecord => "linear_config"
  | AsanaRecord => "asana_config"
  end.

Definition recordPlatform (r : Tier2Record) : string :=
  match r with LinearRecord => "linear" | AsanaRecord => "asana" end.

Definition parseErrorMessage (r : Tier2Record) : string :=
  match r with
  | LinearRecord => "Error parsing Linear config:"
  | AsanaRecord => "Error parsing Asana config:"
  end.

(** What reading and parsing a durable record gives, if anything. *)
Definition readRecord `{Host} (r : Tier2Record) (s : State)
  : option JsValue :=
  match filled (getItem (storageKey r) s) with
  | Some raw => JSON_parse raw
  | None => None
  end.

(** The record is there but [JSON.parse] throws on it. *)
Definition failsToParse `{Host} (r : Tier2Record) (s : State) : bool :=
  match filled (getItem (storageKey r) s) with
  | Some raw => match JSON_parse raw with None => true | Some _ => false end
  | None => false
  end.

(** The platform named by the navigation payload, if it names one. *)
Definition navPlatform (state : option NavState) : option string :=
  match state with
  | Some st => filled (nav_platform st)
  | None => None
  end.

(** The platform tier 2 stands for: the first durable record, in the
    resolver's order, that can be read and parsed. *)
Definition tier2Platform `{Host} (s : State) : option string :=
  match readRecord LinearRecord s with
  | Some _ => Some "linear"
  | None =>
      match readRecord AsanaRecord s with
      | Some _ => Some "asana"
      | None => None
      end
  end.

(** The resolver gets as far as reading record [r]. *)
Definition consults `{Host} (r : Tier2Record) (state : option NavState)
  (s : State) : bool :=
  match navPlatform state with
  | Some _ => false
  | None =>
      match r with
      | LinearRecord => true
      | AsanaRecord =>
          match readRecord LinearRecord s with
          | Some _ => false
          | None => true
          end
      end
  end.

(** The state with the durable record [r] absent. *)
Definition withoutRecord (r : Tier2Record) : State -> State :=
  withBrowser (withLocalStorage (fun m => delete (storageKey r) m)).

(** Two resolutions came to the same result: same session, same log,
    same dialogs, same cookies. *)
Definition sameOutcome (a b : State) : Prop :=
  session a = session b /\ recorder a = recorder b /\ ui a = ui b /\
  logs a = logs b /\ logCalls a = logCalls b /\
  cookies (browser a) = cookies (browser b).

(** The configs that tiers 1 and 2 hand over unchecked are complete for
    their platform. *)
Definition recordTrusted `{Host} (r : Tier2Record) (b : Browser) : bool :=
  match filled (localStorage b !! storageKey r) with
  | Some raw =>
      match JSON_parse raw with
      | Some config => isComplete (Some (recordPlatform r)) config
      | None => true
      end
  | None => true
  end.

Definition payloadTrusted (state : option NavState) : bool :=
  match state with
  | Some st =>
      match filled (nav_platform st) with
      | Some p =>
          if truthy (nav_config st)
          then isComplete (Some p) (nav_config st)
          else true
      | None => true
      end
  | None => true
  end.

Definition tiersTrusted `{Host} (state : option NavState) (b : Browser)
  : bool :=
  payloadTrusted state && recordTrusted LinearRecord b &&
  recordTrusted AsanaRecord b.

(** *** Sessions a user can reach *)

(** One activation of the dashboard over tiers whose unchecked configs are
    complete, followed by any number of saves, board selections (the ids
    Trello lists are non-empty), cancels, edits, recorder clicks, ticks
    and switches. *)
Inductive reachable `{Host} : State -> Prop :=
| reach_resolve state b :
    tiersTrusted state b = true ->
    reachable (resolve state (initialState b))
| reach_save config s :
    reachable s -> reachable (submitConfigurationForm config s)
| reach_board value s :
    reachable s -> nonEmpty value = true ->
    reachable (handleBoardSelect value s)
| reach_cancel s :
    reachable s -> reachable (handleConfigCancel s)
| reach_edit s :
    reachable s -> reachable (setShowConfigForm true s)
| reach_click env s :
    reachable s -> reachable (onRecordButtonClick env s)
| reach_tick h s :
    reachable s -> reachable (tick h s)
| reach_switch s :
    reachable s -> reachable (confirmSwitchApp s).

(** *** Recorder events *)

(** A [Click] is a click whose handler runs to its end, through all its
    awaits, before the next event: [env] says how the promises it awaits
    settle.  Runs in which a click or a tick falls between the awaits of
    a suspended handler are the [Phase] runs below. *)
Inductive Event :=
| Click (env : Env)
| Tick (h : nat).

Definition step `{Host} (s : State) (e : Event) : State :=
  match e with
  | Click env => onRecordButtonClick env s
  | Tick h => tick h s
  end.

Definition run `{Host} (events : list Event) (s : State) : State :=
  foldl step s events.

(** The interval with handle [h] is live: its tick can still fire. *)
Definition live (h : nat) (s : State) : bool :=
  bool_decide (h ∈ timers (browser s)).

(** ** A concrete host for running the model *)

(** The fragment of JSON that the application itself writes with
    [JSON.stringify]: [null] and flat objects whose members are strings
    free of quotes and backslashes, without white space.  On this
    fragment [parseFlat] returns what [JSON.parse] returns; any other
    text is rejected. *)
Definition dquote : ascii := "034"%char.
Definition backslash : ascii := "092"%char.

(** The characters up to the closing quote, and what follows it. *)
Fixpoint readString (s : string) : option (string * string) :=
  match s with
  | EmptyString => None
  | String c rest =>
      if Ascii.eqb c dquote then Some (EmptyString, rest)
      else if Ascii.eqb c backslash then None
      else match readString rest with
           | Some (v, rest') => Some (String c v, rest')
           | None => None
           end
  end.

(** Members [k:v] after the opening brace, up to the closing one. *)
Fixpoint parseMembers (fuel : nat) (s : string) (acc : gmap string JsValue)
  : option JsValue :=
  match fuel, s with
  | S fuel', String q r =>
      if Ascii.eqb q dquote then
        match readString r with
        | Some (k, String colon (String q' r')) =>
            if Ascii.eqb colon ":" && Ascii.eqb q' dquote then
              match readString r' with
              | Some (v, String sep r'') =>
                  let acc' := <[k := JStr v]> acc in
                  if Ascii.eqb sep "," then parseMembers fuel' r'' acc'
                  else if Ascii.eqb sep "}" && negb (nonEmpty r'')
                  then Some (JObj acc')
                  else None
              | _ => None
              end
            else None
        | _ => None
        end
      else None
  | _, _ => None
  end.

Definition parseFlat (s : string) : option JsValue :=
  if s === "null" then Some JNull
  else if s === "{}" then Some (JObj ∅)
  else match s with
       | String "{" r => parseMembers (String.length r) r ∅
       | _ => None
       end.

Definition quoted (s : string) : string :=
  String dquote s +:+ String dquote EmptyString.

(** [JSON.stringify] on the same fragment (members in key order). *)
Definition stringifyFlat (v : JsValue) : string :=
  match v with
  | JObj o =>
      "{" +:+
      String.concat ","
        ((fun kv => quoted (fst kv) +:+ ":" +:+
                    match snd kv with
                    | JStr x => quoted x
                    | _ => "null"
                    end) <$> map_to_list o) +:+ "}"
  | _ => "null"
  end.

(** A decimal numeral as a number; [0] for anything else. *)
Fixpoint decimal (acc : Z) (s : string) : Z :=
  match s with
  | EmptyString => acc
  | String c rest =>
      let d := Z.of_nat (nat_of_ascii c) - 48 in
      if (0 <=? d) && (d <=? 9) then decimal (10 * acc + d) rest else 0
  end%Z.

(** A host whose clock shows the number of the call as seconds. *)
Definition sampleHost : Host :=
  {| JSON_parse := parseFlat;
     JSON_stringify := stringifyFlat;
     toLocaleTimeString := fun n => pretty n;
     freshId := fun n => "id" +:+ pretty n;
     getTime := fun ts => (1000 * decimal 0 ts)%Z |}.

(** A host whose clock never moves: all keys are equal. *)
Definition frozenHost : Host :=
  {| JSON_parse := parseFlat;
     JSON_stringify := stringifyFlat;
     toLocaleTimeString := fun _ => "0";
     freshId := fun n => "id" +:+ pretty n;
     getTime := fun _ => 0%Z |}.

Definition emptyBrowser : Browser :=
  {| localStorage := ∅; cookies := ∅; timers := ∅; nextTimer := 1;
     effects := [] |}.

(** Browsers with one durable Linear record: complete, with an empty
    [apiKey], and damaged. *)
Definition linearRecordText (apiKey workspaceId : string) : string :=
  stringifyFlat (linearConfig apiKey workspaceId).

Definition browserWithLinear (record : string) : Browser :=
  withLocalStorage (fun m => <["linear_config" := record]> m) emptyBrowser.

Definition completeLinearBrowser : Browser :=
  browserWithLinear (linearRecordText "k1" "w1").

Definition incompleteLinearBrowser : Browser :=
  browserWithLinear (linearRecordText "" "w1").

Definition damagedLinearBrowser : Browser :=
  browserWithLinear "{apiKey".

(** The payloads the other pages navigate with: [AppSelection] and
    [TrelloAuth] pass a platform and a token, [ConfigureApp] a platform
    and the form data. *)
Definition trelloHandoff : NavState :=
  {| nav_platform := Some "trello"; nav_token := Some "tok";
     nav_config := JUndefined |}.

Definition asanaHandoff : NavState :=
  {| nav_platform := Some "asana"; nav_token := None;
     nav_config := asanaConfig "pat" "p1" |}.

Definition someLog (n : nat) : LogCall :=
  {| call_type := info; call_message := "entry"; call_details := None |}.

(** A session that is configured for Trello and idle. *)
Definition readyState : State :=
  @resolve sampleHost
    (Some {| nav_platform := Some "trello"; nav_token := None;
             nav_config := trelloConfig "k" "t" "b" |})
    (initialState emptyBrowser).

Definition startOk : Env :=
  {| startOutcome := Resolved tt; stopOutcome := Resolved "audio";
     gateway := BodyUnparseable |}.

Definition stopFails : Env :=
  {| startOutcome := Resolved tt;
     stopOutcome := Rejected "No recording in progress";
     gateway := BodyUnparseable |}.

(** The same session once the user has started recording. *)
Definition recordingState : State :=
  @onRecordButtonClick sampleHost startOk readyState.

(** A browser that holds a complete Linear config in the cookies only. *)
Definition linearCookieBrowser : Browser :=
  withCookies (fun m => <["platform" := "linear"]>
                          (<["apiKey" := "k1"]> (<["workspaceId" := "w1"]> m)))
    emptyBrowser.

(** Form contents: a complete Linear form and one with an empty key. *)
Definition linearForm (apiKey workspaceId : string) : gmap string string :=
  <["apiKey" := apiKey]> (<["workspaceId" := workspaceId]> ∅).

(** ** Elapsed-time display and form editing *)

Fixpoint repeatChar (n : nat) (c : ascii) : string :=
  match n with
  | 0 => EmptyString
  | S n' => String c (repeatChar n' c)
  end.

(** [s.padStart(n, c)] for a one-character pad. *)
Definition padStart (n : nat) (c : ascii) (s : string) : string :=
  repeatChar (n - String.length s) c +:+ s.

(** [formatTime] of UnifiedDashboard.tsx (lines 378-382); [pretty] is
    [Number.prototype.toString] on the non-negative integers. *)
Definition formatTime (seconds : nat) : string :=
  let mins := seconds / 60 in
  let secs := seconds mod 60 in
  padStart 2 "0" (pretty mins) +:+ ":" +:+ padStart 2 "0" (pretty secs).

(** [formatTime] of VoiceManagerNew.tsx (lines 161-165): the minutes are
    not padded. *)
Definition formatTimeShort (seconds : nat) : string :=
  let mins := seconds / 60 in
  let secs := seconds mod 60 in
  pretty mins +:+ ":" +:+ padStart 2 "0" (pretty secs).

(** The initial [config] of ConfigurationForm (lines 39-45). *)
Definition initialFormConfig (selectedTool : string) : gmap string string :=
  if selectedTool === "trello"
  then <["apiKey" := ""]> (<["token" := ""]> (<["boardId" := ""]> ∅))
  else if selectedTool === "linear"
  then <["apiKey" := ""]> (<["workspaceId" := ""]> ∅)
  else <["personalAccessToken" := ""]> (<["projectId" := ""]> ∅).

(** [handleInputChange] (lines 80-82):
    [setConfig(prev => ({ ...prev, [field]: value }))]. *)
Definition handleInputChange (field value : string)
  (config : gmap string string) : gmap string string :=
  <[field := value]> config.

(** The form after a sequence of input events on a fresh mount. *)
Definition typedForm (selectedTool : string) (edits : list (string * string))
  : gmap string string :=
  foldl (fun config e => handleInputChange e.1 e.2 config)
    (initialFormConfig selectedTool) edits.

(** The last value typed into [field], the empty string if none. *)
Definition lastTyped (field : string) (edits : list (string * string))
  : string :=
  match List.find (fun e => e.1 === field) (reverse edits) with
  | Some e => e.2
  | None => ""
  end.

(** ** The other pages: Dashboard, AppSelection, TrelloAuth *)

(** Calls these pages make to the outside.  [console.log] calls, which
    only print, are left out. *)
Inductive PageCall :=
| CallNavigate (path : string) (payload : option NavState)
| CallFetch (url : string)
| CallFetchTrelloBoards (token : option string)
| CallConsoleError (msg : string)
| CallClearTrelloToken
| CallInitiateTrelloOAuth
| CallRedirect (url : string).

Module Dashboard.

(** One element of Trello's answer and the [TrelloBoard] made of it. *)
Record RawBoard := {
  raw_id : string;
  raw_name : string;
  raw_url : string;
  raw_lists : option (list JsValue)
}.

Record TrelloBoard := {
  id : string;
  name : string;
  url : string;
  lists : list JsValue
}.

(** The page's [useState] cells; [errorText] is the cell [error]. *)
Record Page := {
  platform : string;
  boards : list TrelloBoard;
  selectedBoard : string;
  isLoading : bool;
  errorText : string;
  trelloBoardError : option string
}.

Definition initialPage : Page :=
  {| platform := ""; boards := []; selectedBoard := ""; isLoading := true;
     errorText := ""; trelloBoardError := None |}.

Definition setPlatform (v : string) (p : Page) : Page :=
  {| platform := v; boards := boards p; selectedBoard := selectedBoard p;
     isLoading := isLoading p; errorText := errorText p;
     trelloBoardError := trelloBoardError p |}.

Definition setBoards (v : list TrelloBoard) (p : Page) : Page :=
  {| platform := platform p; boards := v; selectedBoard := selectedBoard p;
     isLoading := isLoading p; errorText := errorText p;
     trelloBoardError := trelloBoardError p |}.

Definition setSelectedBoard (v : string) (p : Page) : Page :=
  {| platform := platform p; boards := boards p; selectedBoard := v;
     isLoading := isLoading p; errorText := errorText p;
     trelloBoardError := trelloBoardError p |}.

Definition setIsLoading (v : bool) (p : Page) : Page :=
  {| platform := platform p; boards := boards p;
     selectedBoard := selectedBoard p; isLoading := v;
     errorText := errorText p; trelloBoardError := trelloBoardError p |}.

Definition setError (v : string) (p : Page) : Page :=
  {| platform := platform p; boards := boards p;
     selectedBoard := selectedBoard p; isLoading := isLoading p;
     errorText := v; trelloBoardError := trelloBoardError p |}.

Definition setTrelloBoardError (v : option string) (p : Page) : Page :=
  {| platform := platform p; boards := boards p;
     selectedBoard := selectedBoard p; isLoading := isLoading p;
     errorText := errorText p; trelloBoardError := v |}.

(** The first effect (lines 324-359).  [trelloToken] is what
    [getTrelloToken()] returns; the calls are in the order made. *)
Definition detectPlatform (state : option NavState)
  (trelloToken : option string) (b : Browser) (p : Page)
  : Page * list PageCall :=
  match navPlatform state with
  | Some pf => (setIsLoading false (setPlatform pf p), [])
  | None =>
  match filled (localStorage b !! "linear_config") with
  | Some _ => (setIsLoading false (setPlatform "linear" p), [])
  | None =>
  match filled (localStorage b !! "asana_config") with
  | Some _ => (setIsLoading false (setPlatform "asana" p), [])
  | None =>
  match filled trelloToken with
  | Some tk => (setPlatform "trello" p, [CallFetchTrelloBoards (Some tk)])
  | None =>
  match filled (localStorage b !! "trello_token") with
  | Some tk => (setPlatform "trello" p, [CallFetchTrelloBoards (Some tk)])
  | None => (p, [CallNavigate "/select-app" None])
  end end end end end.

(** [x || 'Failed to fetch Trello boards']. *)
Definition orFailed (msg : option string) : string :=
  match filled msg with
  | Some m => m
  | None => "Failed to fetch Trello boards"
  end.

(** How the request of [fetchTrelloBoards] ends: something in the [try]
    throws an error with that message ([fetch] itself, [response.json()],
    or [.map] on a body that is no array), the response is not [ok] and
    its body carries [message], or it is [ok] with an array. *)
Inductive BoardsResponse :=
| Thrown (message : option string)
| NotOk (message : option string)
| Ok (boardsData : list RawBoard).

(** [token], or the cookie when it is missing or the text "undefined". *)
Definition realToken (token : option string) (b : Browser) : option string :=
  match filled token with
  | Some tk => if tk === "undefined" then cookies b !! "token" else Some tk
  | None => cookies b !! "token"
  end.

Definition boardsUrl (apiKey token : string) : string :=
  "https://api.trello.com/1/members/me/boards?key=" +:+ apiKey +:+
  "&token=" +:+ token +:+ "&lists=open".

Definition transform (board : RawBoard) : TrelloBoard :=
  {| id := raw_id board; name := raw_name board; url := raw_url board;
     lists := default [] (raw_lists board) |}.

(** The [catch] block of [fetchTrelloBoards]. *)
Definition fetchFailed (message : string) (p : Page) : Page :=
  setTrelloBoardError (Some message)
    (setError "Failed to load your Trello boards. Please try again." p).

(** [fetchTrelloBoards] (lines 380-422), run to completion.  [apiKey] is
    [import.meta.env.VITE_TRELLO_APP_KEY]. *)
Definition fetchTrelloBoards (apiKey token : option string)
  (response : BoardsResponse) (b : Browser) (p : Page)
  : Page * list PageCall :=
  let p1 := setTrelloBoardError None (setError "" (setIsLoading true p)) in
  match filled apiKey, filled (realToken token b) with
  | Some key, Some tk =>
      let request := CallFetch (boardsUrl key tk) in
      match response with
      | Thrown message =>
          (setIsLoading false (fetchFailed (orFailed message) p1),
           [request; CallConsoleError "Error fetching Trello boards:"])
      | NotOk message =>
          (setIsLoading false
             (fetchFailed (orFailed (Some (orFailed message)))
                (setTrelloBoardError (Some (orFailed message)) p1)),
           [request; CallConsoleError "Error fetching Trello boards:"])
      | Ok boardsData =>
          let transformedBoards := transform <$> boardsData in
          let p2 := setBoards transformedBoards p1 in
          (setIsLoading false
             (match transformedBoards with
              | first :: _ => setSelectedBoard (id first) p2
              | [] => p2
              end),
           [request])
      end
  | _, _ =>
      (setIsLoading false
         (setBoards []
            (setTrelloBoardError
               (Some "Missing Trello API key or token. Please re-authorize.")
               p1)),
       [])
  end.

(** The second effect (lines 361-378): what it does itself, and the
    [fetchTrelloBoards] call it may make. *)
Definition refreshBoards (apiKey trelloToken : option string) (b : Browser)
  (p : Page) : Page * list PageCall :=
  if platform p === "trello" then
    match filled apiKey, filled (realToken trelloToken b) with
    | Some _, Some tk => (p, [CallFetchTrelloBoards (Some tk)])
    | _, _ =>
        (setBoards []
           (setTrelloBoardError
              (Some "Missing Trello API key or token. Please re-authorize.")
              p),
         [])
    end
  else (p, []).

(** [handleLogout] (lines 424-438).  [clear] is how [clearTrelloToken()]
    ends: it leaves a browser behind, or throws, in which case the
    [catch] block only navigates. *)
Definition handleLogout (clear : Awaited Browser) (b : Browser)
  : Browser * list PageCall :=
  match clear with
  | Resolved cleared =>
      (withLocalStorage
         (fun m => delete "asana_config" (delete "linear_config" m)) cleared,
       [CallClearTrelloToken; CallNavigate "/" None])
  | Rejected _ =>
      (b, [CallClearTrelloToken; CallConsoleError "Logout error:";
           CallNavigate "/" None])
  end.

(** [handleBoardChange] (lines 440-442). *)
Definition handleBoardChange (boardId : string) : Page -> Page :=
  setSelectedBoard boardId.

(** Which of the four screens the page renders (lines 444-620). *)
Inductive Screen :=
| LoadingScreen
| ErrorScreen
| UnifiedDashboardScreen
| TrelloScreen.

Definition render (p : Page) : Screen :=
  if isLoading p then LoadingScreen
  else if nonEmpty (errorText p) then ErrorScreen
  else if negb (platform p === "trello") then UnifiedDashboardScreen
  else TrelloScreen.

End Dashboard.

(** [handleAppSelection] of AppSelection.tsx (lines 77-100): the value of
    [isLoading] at the end and the calls.  [trelloToken] is what
    [getTrelloToken()] returns, [oauth] how [initiateTrelloOAuth()]
    ends. *)
Definition handleAppSelection (appId : string) (trelloToken : option string)
  (oauth : Awaited unit) (b : Browser) : option string * list PageCall :=
  if appId === "trello" then
    let token := match filled trelloToken with
                 | Some tk => Some tk
                 | None => cookies b !! "token"
                 end in
    match filled token with
    | Some tk =>
        (None,
         [CallNavigate "/dashboard"
            (Some {| nav_platform := Some "trello"; nav_token := Some tk;
                     nav_config := JUndefined |})])
    | None =>
        match oauth with
        | Resolved _ => (None, [CallInitiateTrelloOAuth])
        | Rejected _ =>
            (None,
             [CallInitiateTrelloOAuth; CallConsoleError "OAuth error:";
              CallNavigate ("/configure/" +:+ appId) None])
        end
    end
  else (None, [CallNavigate ("/configure/" +:+ appId) None]).

(** The effect of TrelloAuth.tsx (lines 19-39) on the search parameters
    [token] and [error]: the page and the browser after it, and the
    calls.  [authUrl] is [TRELLO_AUTH_URL]. *)
Inductive AuthStatus := initiating | authorizing | authSuccess | authError.

Record AuthPage := { authStatus : AuthStatus; errorMessage : string }.

Definition trelloAuthEffect (authUrl : string) (token error : option string)
  (page : AuthPage) (b : Browser) : AuthPage * Browser * list PageCall :=
  match filled token with
  | Some tk =>
      ({| authStatus := authSuccess; errorMessage := errorMessage page |},
       withLocalStorage (fun m => <["trello_token" := tk]> m) b,
       [CallNavigate "/dashboard"
          (Some {| nav_platform := Some "trello"; nav_token := Some tk;
                   nav_config := JUndefined |})])
  | None =>
      match filled error with
      | Some e => ({| authStatus := authError; errorMessage := e |}, b, [])
      | None =>
          ({| authStatus := authorizing; errorMessage := errorMessage page |},
           b, [CallRedirect authUrl])
      end
  end.

(** The fetch effect of UnifiedDashboard.tsx (lines 158-187). *)
Record BoardSummary := { board_id : string; board_name : string }.

Record Catalog := {
  trelloBoards : list BoardSummary;
  trelloBoardError : option string
}.

(** What [fetch] and [res.json()] come to there: an array of boards, an
    object with a truthy [message], another body, or a thrown error with
    its message. *)
Inductive BoardsAnswer :=
| AnswerBoards (boards : list BoardSummary)
| AnswerMessage (message : string)
| AnswerOther
| AnswerThrown (message : option string).

(** The catalogue after the effect and the request it made, if any;
    [None] when ['token' in platformConfig] throws on a primitive and the
    catalogue stays as it was. *)
Definition fetchBoards (answer : BoardsAnswer) (s : State)
  : option (Catalog * option (JsValue * JsValue)) :=
  let cleared := {| trelloBoards := []; trelloBoardError := None |} in
  if isStr (selectedTool (session s)) "trello" &&
     truthy (platformConfig (session s))
  then match platformConfig (session s) with
       | JObj o =>
           if bool_decide (is_Some (o !! "token")) &&
              bool_decide (is_Some (o !! "apiKey"))
           then
             let request := Some (getField (JObj o) "apiKey",
                                  getField (JObj o) "token") in
             Some (match answer with
                   | AnswerBoards boards =>
                       {| trelloBoards := boards; trelloBoardError := None |}
                   | AnswerMessage message =>
                       {| trelloBoards := [];
                          trelloBoardError :=
                            Some (if nonEmpty message then message
                                  else "Unknown error fetching boards") |}
                   | AnswerOther =>
                       {| trelloBoards := [];
                          trelloBoardError :=
                            Some "Unknown error fetching boards" |}
                   | AnswerThrown message =>
                       {| trelloBoards := [];
                          trelloBoardError :=
                            Some (match filled message with
                                  | Some m => m
                                  | None => "Failed to fetch Trello boards"
                                  end) |}
                   end, request)
           else Some (cleared, None)
       | JArr _ => Some (cleared, None)
       | _ => None
       end
  else Some (cleared, None).

(** ** Vocabulary for the remaining behaviour *)

(** The tick discipline: while recording exactly one interval is live
    and the ref holds its handle; otherwise none is live and the ref is
    empty. *)
Definition tickDiscipline (s : State) : Prop :=
  match recordingStatus (recorder s) with
  | recording =>
      exists h, recordingInterval (recorder s) = Some h /\
                timers (browser s) = {[h]}
  | _ => recordingInterval (recorder s) = None /\ timers (browser s) = ∅
  end.

(** ** The recorder handlers between their awaits *)

(** [startRecording] from the point where
    [await audioRecorder.current.startRecording()] settles. *)
Definition startRecording_resume `{Host} (dev : Awaited unit) (s : State)
  : State :=
  match dev with
  | Resolved _ =>
      let s1 := (setRecordingStatus recording ;;
                 setRecordingTime (fun _ => 0) ;;
                 addLog info "Listening..." None) s in
      let '(h, s2) := setInterval s1 in
      assignRecordingInterval (Some h) s2
  | Rejected msg =>
      addLog error ("Failed to start recording: " +:+ msg) None s
  end.

(** A handler suspended at an [await]: [startRecording] and
    [stopRecording] waiting for the recorder, and [stopRecording] waiting
    for the gateway.  A suspended [stopRecording] keeps the render it
    closed over. *)
Inductive Suspended :=
| AwaitsDeviceStart
| AwaitsDeviceStop (render : State)
| AwaitsGateway.

(** The page between two turns of the event loop: its state and the
    handlers that are suspended. *)
Record Async := {
  st : State;
  pending : list Suspended
}.

Definition settled (s : State) : Async := {| st := s; pending := [] |}.

(** How an awaited promise settles. *)
Inductive Answer :=
| DeviceStarts (dev : Awaited unit)
| DeviceStops (dev : Awaited string)
| GatewayAnswers (gw : GatewayOutcome).

(** One turn of the event loop: the record button is pressed, the promise
    that the [i]-th suspended handler awaits settles, or an interval
    fires. *)
Inductive Phase :=
| Press
| Settle (i : nat) (ans : Answer)
| Elapse (h : nat).

(** A press of the record button (lines 482-492) runs the handler chosen
    by the rendered status up to its first [await]. *)
Definition press `{Host} (a : Async) : Async :=
  let s := st a in
  if negb (isConfigured (session s)) then a
  else match recordingStatus (recorder s) with
       | idle =>
           {| st := emit DeviceStart s;
              pending := pending a ++ [AwaitsDeviceStart] |}
       | _ =>
           {| st := emit DeviceStop s;
              pending := pending a ++ [AwaitsDeviceStop s] |}
       end.

(** The [i]-th suspended handler runs on from its [await] to the next
    one, or to its end.  A settlement no suspended handler waits for does
    nothing. *)
Definition settle `{Host} (i : nat) (ans : Answer) (a : Async) : Async :=
  match pending a !! i, ans with
  | Some AwaitsDeviceStart, DeviceStarts dev =>
      {| st := startRecording_resume dev (st a);
         pending := delete i (pending a) |}
  | Some (AwaitsDeviceStop render), DeviceStops (Resolved audioBlob) =>
      {| st := stopRecording_dispatch audioBlob render (st a);
         pending := <[i := AwaitsGateway]> (pending a) |}
  | Some (AwaitsDeviceStop _), DeviceStops (Rejected msg) =>
      {| st := (addLog error ("Failed to stop recording: " +:+ msg) None ;;
                setRecordingStatus idle) (st a);
         pending := delete i (pending a) |}
  | Some AwaitsGateway, GatewayAnswers gw =>
      {| st := stopRecording_settle gw (st a);
         pending := delete i (pending a) |}
  | _, _ => a
  end.

Definition phase `{Host} (a : Async) (p : Phase) : Async :=
  match p with
  | Press => press a
  | Settle i ans => settle i ans a
  | Elapse h => {| st := tick h (st a); pending := pending a |}
  end.

Definition runPhases `{Host} (phases : list Phase) (a : Async) : Async :=
  foldl phase a phases.

(** The turns of a click whose handler runs to its end before anything
    else happens. *)
Definition clickPhases (env : Env) : list Phase :=
  [Press;
   Settle 0 (DeviceStarts (startOutcome env));
   Settle 0 (DeviceStops (stopOutcome env));
   Settle 0 (GatewayAnswers (gateway env))].

(** How many suspended handlers are starts waiting for the recorder. *)
Definition awaitsStart (x : Suspended) : nat :=
  match x with AwaitsDeviceStart => 1 | _ => 0 end.

Fixpoint startsPending (l : list Suspended) : nat :=
  match l with
  | [] => 0
  | x :: rest => awaitsStart x + startsPending rest
  end.

(** A press that begins a start. *)
Definition pressStarts (a : Async) : bool :=
  isConfigured (session (st a)) &&
  match recordingStatus (recorder (st a)) with idle => true | _ => false end.

(** No start is begun while another start still waits for the
    recorder. *)
Fixpoint startsDoNotOverlap `{Host} (phases : list Phase) (a : Async)
  : bool :=
  match phases with
  | [] => true
  | p :: rest =>
      match p with
      | Press => negb (pressStarts a && negb (startsPending (pending a) =? 0))
      | _ => true
      end && startsDoNotOverlap rest (phase a p)
  end.

(** The recorder never rejects a stop. *)
Definition stopAccepted (p : Phase) : bool :=
  match p with
  | Settle _ (DeviceStops (Rejected _)) => false
  | _ => true
  end.

(** What a run without overlapping starts keeps: the discipline, and
    that a start waits for the recorder only while the page is idle, one
    at a time. *)
Definition asyncDiscipline (a : Async) : Prop :=
  tickDiscipline (st a) /\
  startsPending (pending a) <= 1 /\
  (startsPending (pending a) <> 0 ->
   recordingStatus (recorder (st a)) = idle).

(** How many entries [forEach] adds: one per element up to the first
    that throws, and one for the throw. *)
Fixpoint loopEntries (rs : list ResultItem) : nat :=
  match rs with
  | [] => 0
  | Item _ :: rest => S (loopEntries rest)
  | NullItem _ :: _ => 1
  end.

(** How many entries handling a gateway answer adds to the log. *)
Definition settleEntries (gw : GatewayOutcome) : nat :=
  match gw with
  | TransportFailure _ | BodyUnparseable | BodyNull _ => 1
  | Body data =>
      (if truthyStr (transcript data) then 1 else 0) +
      loopEntries (default [] (results data))
  end.

(** Entries stamped by hand, and a full log stamped 59 down to 10. *)
Definition entryAt (id ts : string) : LogEntry :=
  {| log_id := id; timestamp := ts; log_type := info; message := "entry";
     details := None |}.

Definition fullLog : list LogEntry :=
  (fun n => entryAt ("e" +:+ pretty n) (pretty n)) <$> reverse (seq 10 50).

Definition trelloForm (apiKey token boardId : string) : gmap string string :=
  <["apiKey" := apiKey]> (<["token" := token]> (<["boardId" := boardId]> ∅)).

Definition asanaForm (personalAccessToken projectId : string)
  : gmap string string :=
  <["personalAccessToken" := personalAccessToken]>
    (<["projectId" := projectId]> ∅).

(** A browser whose cookies hold a complete Trello config. *)
Definition trelloCookieBrowser : Browser :=
  withCookies (fun m => <["platform" := "trello"]>
                          (<["apiKey" := "k"]> (<["token" := "t"]>
                             (<["boardId" := "b0"]> m))))
    emptyBrowser.

(** Both the key and a token (the given one or the cookie) are there. *)
Definition credentialsPresent (apiKey token : option string) (b : Browser)
  : bool :=
  truthyStr apiKey && truthyStr (Dashboard.realToken token b).

Definition isOk (response : Dashboard.BoardsResponse) : bool :=
  match response with Dashboard.Ok _ => true | _ => false end.

Definition isFetch (c : PageCall) : bool :=
  match c with CallFetch _ => true | _ => false end.

(** A browser whose only durable record is a complete Asana record. *)
Definition asanaOnlyBrowser : Browser :=
  withLocalStorage
    (fun m => <["asana_config" := stringifyFlat (asanaConfig "pat" "p1")]> m)
    emptyBrowser.

(** * Properties *)

(** ** The activity log is bounded and ordered *)

Section ActivityLog.
Context `{Host}.

Lemma insertBy_length {A} (cmp : A -> A -> Z) x l :
  length (insertBy cmp x l) = S (length l).
Proof.
  induction l as [|y l IH]; simpl; [done|].
  destruct (cmp x y <=? 0)%Z; simpl; congruence.
Qed.

Lemma sortBy_cons {A} (cmp : A -> A -> Z) y l :
  sortBy cmp (y :: l) = insertBy cmp y (sortBy cmp l).
Proof. reflexivity. Qed.

Lemma sortBy_length {A} (cmp : A -> A -> Z) l :
  length (sortBy cmp l) = length l.
Proof.
  induction l as [|y l IH]; [done|].
  rewrite sortBy_cons, insertBy_length. simpl. by rewrite IH.
Qed.

Lemma insertBy_perm {A} (cmp : A -> A -> Z) x l :
  Permutation (x :: l) (insertBy cmp x l).
Proof.
  induction l as [|y l IH]; simpl; [done|].
  destruct (cmp x y <=? 0)%Z; [done|].
  rewrite perm_swap. by constructor.
Qed.

(** Sorting only rearranges: nothing is lost or invented. *)
Lemma sortBy_perm {A} (cmp : A -> A -> Z) l : Permutation l (sortBy cmp l).
Proof.
  induction l as [|y l IH]; [done|].
  rewrite sortBy_cons.
  etransitivity; [|apply insertBy_perm]. by constructor.
Qed.

Lemma insertBy_newestFirst x l :
  newestFirst l -> newestFirst (insertBy compareLogs x l).
Proof.
  unfold newestFirst.
  induction l as [|y l IH]; intros Hs; simpl.
  - repeat constructor.
  - apply StronglySorted_inv in Hs as [Hl Hy].
    destruct (Z.leb_spec (compareLogs x y) 0) as [Hle|Hgt].
    + constructor; [by constructor|].
      assert (timeKey y <= timeKey x)%Z as Hyx
        by (unfold compareLogs, timeKey in *; lia).
      constructor; [done|].
      eapply Forall_impl; [exact Hy|]. simpl. intros z Hz. lia.
    + constructor; [by apply IH|].
      rewrite <- (insertBy_perm compareLogs x l).
      constructor; [|done].
      unfold compareLogs, timeKey in *. lia.
Qed.

Lemma sortBy_newestFirst l : newestFirst (sortBy compareLogs l).
Proof.
  induction l as [|y l IH].
  - constructor.
  - rewrite sortBy_cons. by apply insertBy_newestFirst.
Qed.

Lemma updatedLogs_length e prev : length (updatedLogs e prev) <= 50.
Proof.
  unfold updatedLogs. rewrite sortBy_length, length_take. lia.
Qed.

Lemma updatedLogs_newestFirst e prev : newestFirst (updatedLogs e prev).
Proof. apply sortBy_newestFirst. Qed.

(** The entry just appended is always retained. *)
Lemma updatedLogs_keeps_new e prev : e ∈ updatedLogs e prev.
Proof.
  unfold updatedLogs. rewrite <- sortBy_perm. simpl. apply list_elem_of_here.
Qed.

(** Whatever the log was before, one [addLog] leaves it within bounds
    and ordered. *)
Lemma addLog_bounded_ordered type msg d s :
  length (logs (addLog type msg d s)) <= 50 /\
  newestFirst (logs (addLog type msg d s)).
Proof.
  simpl. split; [apply updatedLogs_length | apply updatedLogs_newestFirst].
Qed.

(** C1.  For every sequence of [addLog] calls, from any state, each
    call inserts its entry at the head and evicts what lies beyond
    capacity 50 (the log after it consists of the new entry and the
    first 49 entries of the log before it, nothing else), and re-sorts
    the retained buffer: the log after it is that buffer sorted, holds at
    most 50 entries and is newest first by the timestamp key. *)
Theorem addLog_sequence_inserts_evicts_sorts (calls : list LogCall)
  (s : State) :
  Forall (fun step =>
            after step ≡ₚ appended step :: take 49 (before step) /\
            after step
              = sortBy compareLogs (take 50 (appended step :: before step)) /\
            length (after step) = min 50 (S (length (before step))) /\
            length (after step) <= 50 /\
            newestFirst (after step))
         (logSteps calls s).
Proof.
  revert s. induction calls as [|c calls IH]; intros s; cbn [logSteps].
  - constructor.
  - cbv zeta. constructor; [|apply IH]. cbn [before appended after].
    change (logs (addLogCall c s))
      with (sortBy compareLogs (take 50 (callEntry c s :: logs s))).
    split; [|split; [|split; [|split]]].
    + symmetry. apply (sortBy_perm compareLogs (callEntry c s :: _)).
    + reflexivity.
    + rewrite sortBy_length, length_take. cbn [length]. lia.
    + rewrite sortBy_length, length_take. lia.
    + apply sortBy_newestFirst.
Qed.
End ActivityLog.

(** Fifty-five appends with a strictly advancing clock keep exactly the
    fifty most recent entries, newest first. *)
Example fifty_five_appends :
  let final := foldl (fun s c => @addLogCall sampleHost c s)
                 (initialState emptyBrowser) (someLog <$> seq 0 55) in
  timestamp <$> logs final = (fun n => pretty (54 - n)) <$> seq 0 50.
Proof. vm_compute. reflexivity. Qed.

(** With equal keys the stable sort keeps the order of insertion at the
    head. *)
Example equal_keys_keep_insertion_order :
  let final := foldl (fun s c => @addLogCall frozenHost c s)
                 (initialState emptyBrowser) (someLog <$> seq 0 3) in
  log_id <$> logs final = ["id2"; "id1"; "id0"].
Proof. vm_compute. reflexivity. Qed.

(** ** Start is refused while unconfigured *)

Create HintDb setters.
#[global] Hint Unfold andThen when skip
  setSelectedTool setPlatformConfig setIsConfigured
  setRecordingStatus setRecordingTime assignRecordingInterval
  setShowConfigForm setShowSwitchConfirm setLatestResponse setSelectedBoardId
  setItem Cookies_set Cookies_remove emit clearInterval addLog
  withSession withRecorder withUi withBrowser withLocalStorage withCookies
  emitB : setters.

(** [run_handler] exposes the statements of a handler; [run_setters] also
    runs them down to the fields of the state. *)
Ltac run_handler :=
  unfold andThen, when, skip in *; simpl in *.

Ltac run_setters :=
  autounfold with setters in *; simpl in *.

Section RecordButton.
Context `{Host}.

(** The handler itself has no guard: whenever it runs, the recorder is
    asked for the device. *)
Lemma startRecording_acquires dev s :
  DeviceStart ∈ effects (browser (startRecording dev s)).
Proof.
  unfold startRecording. destruct dev as [[]|msg]; run_handler;
    apply list_elem_of_here.
Qed.

(** C5.  A start action while [isConfigured] is false is refused: the
    state, and with it the recording status, is as before, and no call
    to the audio device is added to the outgoing calls. *)
Theorem start_refused_when_unconfigured (env : Env) (s : State) :
  isConfigured (session s) = false ->
  onRecordButtonClick env s = s /\
  recordingStatus (recorder (onRecordButtonClick env s))
    = recordingStatus (recorder s) /\
  effects (browser (onRecordButtonClick env s)) = effects (browser s).
Proof.
  intros Hc. unfold onRecordButtonClick. rewrite Hc. simpl. done.
Qed.
End RecordButton.

(** ** Switching platform *)

Section Switch.
Context `{Host}.

Lemma tier3Keys_removed (m : gmap string string) k :
  k ∈ tier3Keys ->
  delete "platform" (delete "projectId" (delete "personalAccessToken"
    (delete "workspaceId" (delete "boardId" (delete "token"
      (delete "apiKey" m)))))) !! k = None.
Proof.
  unfold tier3Keys. intros Hk.
  repeat (apply elem_of_cons in Hk as [->|Hk]);
    [by simplify_map_eq.. | by apply elem_of_nil in Hk].
Qed.

Lemma other_cookies_kept (m : gmap string string) k :
  k ∉ tier3Keys ->
  delete "platform" (delete "projectId" (delete "personalAccessToken"
    (delete "workspaceId" (delete "boardId" (delete "token"
      (delete "apiKey" m)))))) !! k = m !! k.
Proof.
  unfold tier3Keys. intros Hk.
  repeat (apply not_elem_of_cons in Hk as [? Hk]).
  by rewrite !lookup_delete_ne.
Qed.

(** C9.  From any state, [confirmSwitchApp] leaves no platform, no
    config and [isConfigured = false]; every tier-3 cookie is gone;
    the durable records of tier 2 are exactly as before, and the only
    outgoing call is a navigation that carries no payload. *)
Theorem confirmSwitchApp_clears_session_and_cookies (s : State) :
  let s' := confirmSwitchApp s in
  selectedTool (session s') = None /\
  platformConfig (session s') = JNull /\
  isConfigured (session s') = false /\
  (forall k, k ∈ tier3Keys -> cookies (browser s') !! k = None) /\
  (forall k, k ∉ tier3Keys ->
     cookies (browser s') !! k = cookies (browser s) !! k) /\
  localStorage (browser s') = localStorage (browser s) /\
  effects (browser s') = Navigate "/select-app" None :: effects (browser s).
Proof.
  unfold confirmSwitchApp. run_handler.
  repeat split; try done.
  - apply tier3Keys_removed.
  - apply other_cookies_kept.
Qed.
End Switch.

(** ** Precedence of the navigation payload *)

Section Precedence.
Context `{Host}.

(** Left to itself, tier 2 decides the platform. *)
Lemma tier2_decides_without_payload state s q :
  navPlatform state = None ->
  tier2Platform s = Some q ->
  selectedTool (session (resolve state s)) = Some q.
Proof.
  intros Hn Hq.
  assert (resolve state s = detectLinear s) as ->.
  { unfold resolve. destruct state as [st|]; [|done].
    simpl in Hn. by rewrite Hn. }
  unfold tier2Platform, readRecord in Hq. simpl in Hq.
  unfold detectLinear, detectAsana.
  destruct (filled (getItem "linear_config" s)) as [raw|].
  - destruct (JSON_parse raw) as [cfg|].
    + inversion Hq; subst. by run_handler.
    + destruct (filled (getItem "asana_config" s)) as [raw'|] eqn:Ha.
      * destruct (JSON_parse raw') as [cfg'|] eqn:Hp; [|done].
        inversion Hq; subst.
        change (getItem "asana_config"
                  (emit (ConsoleError "Error parsing Linear config:") s))
          with (getItem "asana_config" s).
        rewrite Ha, Hp. by run_handler.
      * done.
  - destruct (filled (getItem "asana_config" s)) as [raw'|]; [|done].
    destruct (JSON_parse raw') as [cfg'|]; [|done].
    inversion Hq; subst. by run_handler.
Qed.

(** C6.  When the navigation payload names platform [p] and tier 2
    stands for a different platform [q], the resolved platform is [p]. *)
Theorem payload_platform_wins_over_tier2 (state : option NavState)
  (s : State) (p q : string) :
  navPlatform state = Some p ->
  tier2Platform s = Some q ->
  q <> p ->
  selectedTool (session (resolve state s)) = Some p.
Proof.
  intros Hp _ _. destruct state as [st|]; [|done].
  simpl in Hp. unfold resolve. rewrite Hp. run_handler.
  by destruct (truthy (nav_config st)).
Qed.

(** C10.  A payload with a platform but no config: on activation the
    platform is adopted, [isConfigured] stays false and no config is
    set; neither store is read or written, so the resolved session is
    the same over every browser, whatever tiers 2 and 3 hold. *)
Theorem payload_without_config_short_circuits (st : NavState) (p : string)
  (b : Browser) :
  filled (nav_platform st) = Some p ->
  truthy (nav_config st) = false ->
  let s' := resolve (Some st) (initialState b) in
  selectedTool (session s') = Some p /\
  isConfigured (session s') = false /\
  platformConfig (session s') = JNull /\
  browser s' = b /\
  (forall b', session (resolve (Some st) (initialState b')) = session s').
Proof.
  intros Hp Hc. unfold resolve. rewrite Hp. unfold andThen, when.
  rewrite Hc. simpl. done.
Qed.
End Precedence.

(** ** Saving an incomplete form *)

Section Save.
Context `{Host}.

Lemma empty_field_not_truthy (config : gmap string string) k :
  config !! k = Some "" -> truthyStr (config !! k) = false.
Proof. by intros ->. Qed.

(** The form's own validity test fails as soon as a required field is
    missing or empty. *)
Lemma isFormValid_false tool (config : gmap string string) k :
  k ∈ requiredFields tool ->
  truthyStr (config !! k) = false ->
  isFormValid tool config = false.
Proof.
  unfold requiredFields, isFormValid. intros Hk Hv.
  destruct (tool === "trello");
    [|destruct (tool === "linear"); [|destruct (tool === "asana")]];
    repeat (apply elem_of_cons in Hk as [->|Hk]);
    try (by apply elem_of_nil in Hk);
    rewrite Hv; by rewrite ?andb_false_r.
Qed.

Lemma handleSubmit_guard tool (config : gmap string string) s :
  isFormValid tool config = false ->
  ConfigurationForm_handleSubmit tool config s = s.
Proof.
  unfold isFormValid, ConfigurationForm_handleSubmit. intros Hv.
  destruct (tool === "trello"); [by rewrite Hv|].
  destruct (tool === "linear"); [by rewrite Hv|].
  destruct (tool === "asana"); [by rewrite Hv|done].
Qed.

Lemma missingFields_nonempty tool fields (config : gmap string string) k :
  appConfigs tool = Some fields ->
  k ∈ requiredFields tool ->
  truthyStr (config !! k) = false ->
  (0 <? length (missingFields fields config))%nat = true.
Proof.
  unfold appConfigs, requiredFields, missingFields. intros Ha Hk Hv.
  destruct (tool === "trello") eqn:Et.
  { apply String.eqb_eq in Et. by subst. }
  destruct (tool === "linear"); [|destruct (tool === "asana"); [|done]];
    inversion Ha; subst; clear Ha;
    repeat (apply elem_of_cons in Hk as [->|Hk]);
    try (by apply elem_of_nil in Hk);
    simpl; rewrite Hv; simpl;
    by repeat match goal with
              | |- context [truthyStr ?x] => destruct (truthyStr x); simpl
              end.
Qed.

(** C8.  A save in which a required field of the selected platform is
    the empty string changes nothing.  In the dashboard's form the whole
    state (session, durable storage, cookies, log) is the state before;
    on the ConfigureApp page both stores are as before, the page does
    not report success, and no navigation to the dashboard is issued,
    so no session is built from the rejected data. *)
Theorem save_with_empty_required_field_is_noop (tool k : string)
  (config : gmap string string) (s : State)
  (submitting succeeded : bool) (store : Awaited unit) (b : Browser) :
  k ∈ requiredFields tool ->
  config !! k = Some "" ->
  ConfigurationForm_handleSubmit tool config s = s /\
  let r := ConfigureApp_handleSubmit tool store
             {| formData := config; isSubmitting := submitting;
                isSuccess := succeeded |} b in
  localStorage r.2 = localStorage b /\
  cookies r.2 = cookies b /\
  isSuccess r.1 = succeeded /\
  (forall path payload,
     Navigate path payload ∈ effects r.2 ->
     Navigate path payload ∈ effects b).
Proof.
  intros Hk He. apply empty_field_not_truthy in He. split.
  - eauto using handleSubmit_guard, isFormValid_false.
  - unfold ConfigureApp_handleSubmit.
    destruct (appConfigs tool) as [fields|] eqn:Ha; [|done].
    simpl. erewrite missingFields_nonempty by eauto. simpl.
    repeat split; try done.
    intros path payload Hin. by apply elem_of_cons in Hin as [?|?].
Qed.
End Save.

(** ** Damaged durable records *)

Section ParseFailure.
Context `{Host}.

Lemma noConfiguration_oneInfoEntry s : oneInfoEntry s (noConfiguration s).
Proof. eexists. by run_handler. Qed.

Lemma detectFromCookies_oneInfoEntry s :
  oneInfoEntry s (detectFromCookies s).
Proof.
  unfold detectFromCookies.
  repeat case_match; try apply noConfiguration_oneInfoEntry;
    eexists; by run_handler.
Qed.

Lemma oneInfoEntry_after_emit e s s' :
  oneInfoEntry (emit e s) s' -> oneInfoEntry s s'.
Proof. done. Qed.

Lemma detectAsana_oneInfoEntry s : oneInfoEntry s (detectAsana s).
Proof.
  unfold detectAsana. repeat case_match.
  - eexists. by run_handler.
  - eapply oneInfoEntry_after_emit, detectFromCookies_oneInfoEntry.
  - apply detectFromCookies_oneInfoEntry.
Qed.

Lemma detectLinear_oneInfoEntry s : oneInfoEntry s (detectLinear s).
Proof.
  unfold detectLinear. repeat case_match.
  - eexists. by run_handler.
  - eapply oneInfoEntry_after_emit, detectAsana_oneInfoEntry.
  - apply detectAsana_oneInfoEntry.
Qed.

(** Every branch of the resolver appends exactly one [info] entry. *)
Lemma resolve_oneInfoEntry state s : oneInfoEntry s (resolve state s).
Proof.
  unfold resolve. destruct state as [st|];
    [|apply detectLinear_oneInfoEntry].
  destruct (filled (nav_platform st)); [|apply detectLinear_oneInfoEntry].
  eexists. run_handler. by destruct (truthy (nav_config st)).
Qed.

(** The cookie tier makes no outgoing call, and its result depends on
    the browser only through the cookies. *)
Lemma detectFromCookies_effects s :
  effects (browser (detectFromCookies s)) = effects (browser s).
Proof.
  unfold detectFromCookies, noConfiguration.
  repeat case_match; by run_handler.
Qed.

Lemma detectFromCookies_sameOutcome a b :
  sameOutcome a b ->
  sameOutcome (detectFromCookies a) (detectFromCookies b).
Proof.
  destruct a as [sa ra ua la na [lsa ca ta nta ea]],
           b as [sb rb ub lb nb [lsb cb tb ntb eb]].
  unfold sameOutcome. simpl. intros (-> & -> & -> & -> & -> & ->).
  unfold detectFromCookies, noConfiguration, Cookies_get. simpl.
  repeat case_match; by run_handler.
Qed.

Lemma detectAsana_effects_mono e s :
  e ∈ effects (browser s) -> e ∈ effects (browser (detectAsana s)).
Proof.
  intros He. unfold detectAsana. repeat case_match.
  - by run_handler.
  - rewrite detectFromCookies_effects. simpl. by apply list_elem_of_further.
  - by rewrite detectFromCookies_effects.
Qed.

Lemma detectAsana_sameOutcome a b :
  sameOutcome a b ->
  getItem "asana_config" a = getItem "asana_config" b ->
  sameOutcome (detectAsana a) (detectAsana b).
Proof.
  intros Hab Hk. unfold detectAsana. rewrite Hk.
  destruct (filled (getItem "asana_config" b)) as [raw|];
    [|by apply detectFromCookies_sameOutcome].
  destruct (JSON_parse raw) as [cfg|].
  - destruct Hab as (Hs & Hr & Hu & Hl & Hn & Hc).
    unfold sameOutcome. run_handler. repeat split; congruence.
  - apply detectFromCookies_sameOutcome. exact Hab.
Qed.

Lemma getItem_withoutRecord_same r s :
  getItem (storageKey r) (withoutRecord r s) = None.
Proof. unfold getItem, withoutRecord. simpl. apply lookup_delete_eq. Qed.

Lemma getItem_withoutRecord_other r k s :
  k <> storageKey r -> getItem k (withoutRecord r s) = getItem k s.
Proof.
  intros Hk. unfold getItem, withoutRecord. simpl.
  by apply lookup_delete_ne.
Qed.

(** C7.  When the resolver consults a durable record that fails to
    parse, the failure is written to the console and the resolver goes
    on to the next tier: its result is the one it reaches with the
    record absent.  And every branch of the resolver, from any state and
    payload, appends exactly one [info] entry to the log. *)
Theorem unparseable_record_logged_and_skipped (r : Tier2Record)
  (state : option NavState) (s : State) :
  consults r state s = true ->
  failsToParse r s = true ->
  ConsoleError (parseErrorMessage r) ∈ effects (browser (resolve state s)) /\
  sameOutcome (resolve state s) (resolve state (withoutRecord r s)) /\
  (forall state' s', oneInfoEntry s' (resolve state' s')).
Proof.
  intros Hc Hf. split; [|split; [|apply resolve_oneInfoEntry]].
  all: unfold consults in Hc;
    destruct (navPlatform state) as [p|] eqn:Hn; [done|];
    assert (forall x, resolve state x = detectLinear x) as Hres
      by (intros x; unfold resolve; destruct state as [st|]; [|done];
          simpl in Hn; by rewrite Hn);
    rewrite !Hres; clear Hres;
    unfold failsToParse in Hf.
  - destruct r; simpl in *.
    + unfold detectLinear.
      destruct (filled (getItem "linear_config" s)) as [raw|]; [|done].
      destruct (JSON_parse raw); [done|].
      apply detectAsana_effects_mono. simpl. apply list_elem_of_here.
    + assert (forall x,
        filled (getItem "asana_config" x) = filled (getItem "asana_config" s) ->
        ConsoleError "Error parsing Asana config:"
          ∈ effects (browser (detectAsana x))) as Hasana.
      { intros x Hx. unfold detectAsana. rewrite Hx.
        destruct (filled (getItem "asana_config" s)) as [raw|]; [|done].
        destruct (JSON_parse raw); [done|].
        rewrite detectFromCookies_effects. simpl. apply list_elem_of_here. }
      unfold readRecord in Hc. simpl in Hc. unfold detectLinear.
      destruct (filled (getItem "linear_config" s)) as [raw|].
      * destruct (JSON_parse raw); [done|]. by apply Hasana.
      * by apply Hasana.
  - destruct r; simpl in *.
    + unfold detectLinear.
      rewrite (getItem_withoutRecord_same LinearRecord). simpl.
      destruct (filled (getItem "linear_config" s)) as [raw|]; [|done].
      destruct (JSON_parse raw); [done|].
      apply detectAsana_sameOutcome; [done|].
      by rewrite (getItem_withoutRecord_other LinearRecord).
    + assert (forall x y, sameOutcome x y ->
        getItem "asana_config" x = getItem "asana_config" s ->
        getItem "asana_config" y = None ->
        sameOutcome (detectAsana x) (detectAsana y)) as Hasana.
      { intros x y Hxy Hx Hy. unfold detectAsana. rewrite Hx, Hy. simpl.
        destruct (filled (getItem "asana_config" s)) as [raw|]; [|done].
        destruct (JSON_parse raw); [done|].
        by apply detectFromCookies_sameOutcome. }
      unfold readRecord in Hc. simpl in Hc. unfold detectLinear.
      rewrite (getItem_withoutRecord_other AsanaRecord) by done.
      destruct (filled (getItem "linear_config" s)) as [raw|].
      * destruct (JSON_parse raw); [done|].
        apply Hasana; [done|done|].
        apply (getItem_withoutRecord_same AsanaRecord).
      * apply Hasana; [done|done|].
        apply (getItem_withoutRecord_same AsanaRecord).
Qed.
End ParseFailure.

(** ** When a session counts as configured *)

Section Configured.
Context `{Host}.

Lemma filled_Some o v : filled o = Some v -> o = Some v /\ nonEmpty v = true.
Proof.
  unfold filled. destruct o as [x|]; [|done].
  destruct (nonEmpty x) eqn:Hx; [|done]. by intros [= ->].
Qed.

Lemma getField_strObj (m : gmap string string) k :
  getField (strObj m) k = default JUndefined (JStr <$> m !! k).
Proof. unfold getField, strObj. by rewrite lookup_fmap. Qed.

Lemma isFilled_strObj (m : gmap string string) k :
  isFilled (getField (strObj m) k) = truthyStr (m !! k).
Proof. rewrite getField_strObj. by destruct (m !! k). Qed.

Lemma isComplete_strObj tool (m : gmap string string) :
  isComplete (Some tool) (strObj m) =
  hasVariant tool && forallb (fun k => truthyStr (m !! k)) (requiredFields tool).
Proof.
  change (isComplete (Some tool) (strObj m)) with
    (hasVariant tool &&
     forallb (fun k => isFilled (getField (strObj m) k)) (requiredFields tool)).
  f_equal. induction (requiredFields tool) as [|k l IH]; [done|].
  cbn [forallb]. by rewrite isFilled_strObj, IH.
Qed.

Lemma trelloConfig_complete a t b :
  nonEmpty a = true -> nonEmpty t = true -> nonEmpty b = true ->
  isComplete (Some "trello") (trelloConfig a t b) = true.
Proof.
  intros Ha Ht Hb. unfold trelloConfig. rewrite isComplete_strObj.
  cbn [hasVariant requiredFields String.eqb Ascii.eqb Bool.eqb forallb orb andb].
  simplify_map_eq. simpl. by rewrite Ha, Ht, Hb.
Qed.

Lemma linearConfig_complete a w :
  nonEmpty a = true -> nonEmpty w = true ->
  isComplete (Some "linear") (linearConfig a w) = true.
Proof.
  intros Ha Hw. unfold linearConfig. rewrite isComplete_strObj.
  cbn [hasVariant requiredFields String.eqb Ascii.eqb Bool.eqb forallb orb andb].
  simplify_map_eq. simpl. by rewrite Ha, Hw.
Qed.

Lemma asanaConfig_complete t p :
  nonEmpty t = true -> nonEmpty p = true ->
  isComplete (Some "asana") (asanaConfig t p) = true.
Proof.
  intros Ht Hp. unfold asanaConfig. rewrite isComplete_strObj.
  cbn [hasVariant requiredFields String.eqb Ascii.eqb Bool.eqb forallb orb andb].
  simplify_map_eq. simpl. by rewrite Ht, Hp.
Qed.

(** A form that passes [isFormValid] is a complete config for its tool. *)
Lemma valid_form_complete tool (config : gmap string string) :
  isFormValid tool config = true ->
  isComplete (Some tool) (strObj config) = true.
Proof.
  rewrite isComplete_strObj.
  unfold isFormValid, requiredFields, hasVariant.
  destruct (tool === "trello"); [|destruct (tool === "linear");
    [|destruct (tool === "asana"); [|done]]];
    simpl; intros Hv; rewrite ?andb_true_r; by rewrite ?andb_assoc.
Qed.

Lemma sessionInvariant_iff s : sessionInvariant s -> configuredIffComplete s.
Proof.
  intros [Hc Hn]. split; [done|].
  destruct (isConfigured (session s)); [done|].
  rewrite Hn by done. by destruct (selectedTool (session s)).
Qed.

Lemma sessionInvariant_session a b :
  session a = session b -> sessionInvariant b -> sessionInvariant a.
Proof. unfold sessionInvariant. by intros ->. Qed.

(** The cookie tier checks every field it adopts. *)
Lemma detectFromCookies_invariant s :
  sessionInvariant s -> sessionInvariant (detectFromCookies s).
Proof.
  intros Hs. unfold detectFromCookies, noConfiguration.
  repeat case_match;
    try (eapply sessionInvariant_session; [|exact Hs]; by run_handler);
    repeat match goal with
           | H : filled _ = Some _ |- _ => apply filled_Some in H as [_ ?]
           end;
    run_handler; (split; [intros _|done]).
  - by apply trelloConfig_complete.
  - by apply linearConfig_complete.
  - by apply asanaConfig_complete.
Qed.

Lemma detectAsana_invariant s :
  recordTrusted AsanaRecord (browser s) = true ->
  sessionInvariant s -> sessionInvariant (detectAsana s).
Proof.
  unfold recordTrusted, detectAsana, getItem. simpl. intros Ht Hs.
  destruct (filled (localStorage (browser s) !! "asana_config")) as [raw|];
    [|by apply detectFromCookies_invariant].
  destruct (JSON_parse raw) as [cfg|].
  - run_handler. by split.
  - apply detectFromCookies_invariant.
    eapply sessionInvariant_session; [|exact Hs]. done.
Qed.

Lemma detectLinear_invariant s :
  recordTrusted LinearRecord (browser s) = true ->
  recordTrusted AsanaRecord (browser s) = true ->
  sessionInvariant s -> sessionInvariant (detectLinear s).
Proof.
  unfold detectLinear, getItem. intros Hl Ha Hs.
  unfold recordTrusted in Hl. simpl in Hl.
  destruct (filled (localStorage (browser s) !! "linear_config")) as [raw|];
    [|by apply detectAsana_invariant].
  destruct (JSON_parse raw) as [cfg|].
  - run_handler. by split.
  - apply detectAsana_invariant; [done|].
    eapply sessionInvariant_session; [|exact Hs]. done.
Qed.

Lemma initialState_invariant b : sessionInvariant (initialState b).
Proof. by split. Qed.

Lemma resolve_invariant state b :
  tiersTrusted state b = true ->
  sessionInvariant (resolve state (initialState b)).
Proof.
  unfold tiersTrusted. intros [[Hp Hl]%andb_prop Ha]%andb_prop.
  assert (sessionInvariant (detectLinear (initialState b))) as Hd
    by (apply detectLinear_invariant; auto using initialState_invariant).
  unfold resolve. destruct state as [st|]; [|done].
  simpl in Hp. destruct (filled (nav_platform st)) as [p|]; [|done].
  unfold andThen, when.
  destruct (truthy (nav_config st)); simpl; by split.
Qed.
End Configured.

Section Reachable.
Context `{Host}.

Lemma handleSubmit_invariant tool config s :
  selectedTool (session s) = Some tool ->
  sessionInvariant s ->
  sessionInvariant (ConfigurationForm_handleSubmit tool config s).
Proof.
  intros Ht Hs.
  destruct (isFormValid tool config) eqn:Hv;
    [|by rewrite handleSubmit_guard].
  pose proof (valid_form_complete _ _ Hv) as Hc.
  assert (session (ConfigurationForm_handleSubmit tool config s) =
          {| selectedTool := Some tool; platformConfig := strObj config;
             isConfigured := true |}) as Hsess.
  { unfold ConfigurationForm_handleSubmit, isFormValid in *.
    destruct (tool === "trello");
      [|destruct (tool === "linear"); [|destruct (tool === "asana")]];
      try done; rewrite Hv; run_handler; by rewrite Ht. }
  unfold sessionInvariant. rewrite Hsess. simpl. by split.
Qed.

Lemma submit_invariant config s :
  sessionInvariant s -> sessionInvariant (submitConfigurationForm config s).
Proof.
  intros Hs. unfold submitConfigurationForm.
  destruct (filled (selectedTool (session s))) as [tool|] eqn:Ht; [|done].
  apply filled_Some in Ht as [Ht _].
  destruct (showConfigForm (ui s)); [|done].
  by apply handleSubmit_invariant.
Qed.

Lemma isStr_eq o lit : isStr o lit = true -> o = Some lit.
Proof.
  destruct o as [v|]; [|done]. simpl. by intros ->%String.eqb_eq.
Qed.

(** Selecting a board fills [boardId] and keeps the other fields. *)
Lemma handleBoardSelect_invariant value s :
  nonEmpty value = true ->
  sessionInvariant s -> sessionInvariant (handleBoardSelect value s).
Proof.
  intros Hv Hs. unfold handleBoardSelect.
  assert (sessionInvariant (setSelectedBoardId (Some value) s)) as Hkeep
    by (eapply sessionInvariant_session; [|exact Hs]; done).
  destruct (isStr (selectedTool (session s)) "trello") eqn:Ht; [|done].
  apply isStr_eq in Ht. cbn [andb].
  destruct (truthy (platformConfig (session s))); [|done].
  destruct Hs as [Hc Hn].
  destruct (platformConfig (session s)) as [| |b|n|str|items|o] eqn:Hcfg;
    try done.
  case_match; [|done]. unfold sessionInvariant. run_setters.
  split; [|intros Hf; by specialize (Hn Hf)].
  intros Hconf. specialize (Hc Hconf). rewrite Ht in *.
  revert Hc. unfold isComplete.
  cbn [hasVariant requiredFields String.eqb Ascii.eqb Bool.eqb forallb orb
       andb getField].
  rewrite lookup_insert_eq, !lookup_insert_ne by done.
  simpl. rewrite Hv. intros Hc.
  repeat (apply andb_prop in Hc as [? Hc]).
  by repeat (apply andb_true_intro; split).
Qed.

Lemma handleConfigCancel_invariant s :
  sessionInvariant s -> sessionInvariant (handleConfigCancel s).
Proof.
  intros Hs. unfold handleConfigCancel. run_handler.
  destruct (isConfigured (session s)) eqn:Hconf; simpl.
  - eapply sessionInvariant_session; [|exact Hs]. done.
  - destruct Hs as [_ Hn]. unfold sessionInvariant. run_setters.
    rewrite Hconf. split; [done|]. intros _. by apply Hn.
Qed.

Lemma confirmSwitchApp_invariant s : sessionInvariant (confirmSwitchApp s).
Proof. by split. Qed.

(** The recorder never writes the session. *)
Lemma logResult_session r s : session (logResult r s) = session s.
Proof. unfold logResult. by destruct (r_success r). Qed.

Lemma logResults_session rs s : session (forEachResult rs s) = session s.
Proof.
  revert s. induction rs as [|[r|message] rs IH]; intros s; simpl; try done.
  by rewrite IH, logResult_session.
Qed.

Lemma stopRecording_settle_session gw s :
  session (stopRecording_settle gw s) = session s.
Proof.
  destruct gw as [msg| |msg|[tr rs]]; try done.
  unfold stopRecording_settle. run_handler.
  destruct rs as [rs|]; rewrite ?logResults_session;
    destruct tr as [t|]; try done; by destruct (nonEmpty t).
Qed.

Lemma onRecordButtonClick_session env s :
  session (onRecordButtonClick env s) = session s.
Proof.
  unfold onRecordButtonClick.
  destruct (isConfigured (session s)); simpl; [|done].
  destruct (recordingStatus (recorder s)).
  - unfold startRecording. by destruct (startOutcome env).
  - unfold stopRecording. destruct (stopOutcome env); [|done].
    unfold andThen. rewrite stopRecording_settle_session.
    unfold stopRecording_dispatch. run_handler. by case_match.
  - unfold stopRecording. destruct (stopOutcome env); [|done].
    unfold andThen. rewrite stopRecording_settle_session.
    unfold stopRecording_dispatch. run_handler. by case_match.
Qed.

Lemma tick_session h s : session (tick h s) = session s.
Proof. unfold tick. by case_decide. Qed.

Lemma reachable_invariant s : reachable s -> sessionInvariant s.
Proof.
  induction 1.
  - by apply resolve_invariant.
  - by apply submit_invariant.
  - by apply handleBoardSelect_invariant.
  - by apply handleConfigCancel_invariant.
  - eapply sessionInvariant_session; [|eassumption]. done.
  - eapply sessionInvariant_session; [|eassumption].
    apply onRecordButtonClick_session.
  - eapply sessionInvariant_session; [|eassumption]. apply tick_session.
  - apply confirmSwitchApp_invariant.
Qed.

(** C2, as amended.  Take one activation over tiers whose unchecked
    configs (navigation payload, durable records) are complete for
    their platform, followed by any sequence of saves, board
    selections, cancels, edits, recorder actions and switches.  In
    every state so reached, [isConfigured] is true if and only if a
    config is present whose every required field for the active
    platform is a non-empty string. *)
Theorem reachable_configured_iff_complete (s : State) :
  reachable s -> configuredIffComplete s.
Proof. intros Hr. by apply sessionInvariant_iff, reachable_invariant. Qed.
End Reachable.

(** ** The resolver and the specification's invariant, on examples *)

(** The scenario of the specification: tier 2 holds a complete Linear
    record, nothing else is set. *)
Example linear_record_scenario :
  let s := @resolve sampleHost None (initialState completeLinearBrowser) in
  selectedTool (session s) = Some "linear" /\
  isConfigured (session s) = true /\
  (log_type <$> logs s, message <$> logs s)
    = ([info], ["Connected to Linear"]).
Proof. vm_compute. done. Qed.

(** C2 fails as stated.  A durable Linear record whose [apiKey] is empty
    is adopted and marked configured although the config is incomplete;
    and re-selecting Linear when only the cookies hold its config clears
    [isConfigured] while the complete config stays in the session. *)
Lemma unchecked_tiers_break_configured_iff_complete :
  ~ configuredIffComplete
      (@resolve sampleHost None (initialState incompleteLinearBrowser)) /\
  ~ configuredIffComplete
      (@handleToolChange sampleHost "linear"
         (@resolve sampleHost None (initialState linearCookieBrowser))).
Proof.
  split; intros [Hto Hfrom].
  - assert (false = true) as Habs; [|discriminate Habs].
    etransitivity; [|apply Hto]; by vm_compute.
  - assert (false = true) as Habs; [|discriminate Habs].
    etransitivity; [|apply Hfrom]; by vm_compute.
Qed.

(** The amended invariant on a session activated from a complete Linear
    record and then saved again with new credentials. *)
Lemma reachable_configured_iff_complete_witness :
  let s := @submitConfigurationForm sampleHost (linearForm "k2" "w2")
             (setShowConfigForm true
                (@resolve sampleHost None (initialState completeLinearBrowser)))
  in @reachable sampleHost s /\ configuredIffComplete s.
Proof.
  assert (@reachable sampleHost
            (@submitConfigurationForm sampleHost (linearForm "k2" "w2")
               (setShowConfigForm true
                  (@resolve sampleHost None
                     (initialState completeLinearBrowser))))) as Hr.
  { apply reach_save, reach_edit, reach_resolve. vm_compute. reflexivity. }
  split; [exact Hr|].
  exact (@reachable_configured_iff_complete sampleHost _ Hr).
Defined.

(** A click on the record button right after an activation that found
    nothing. *)
Lemma start_refused_when_unconfigured_witness :
  let s := initialState emptyBrowser in
  isConfigured (session s) = false /\
  @onRecordButtonClick sampleHost startOk s = s.
Proof.
  split; [reflexivity|].
  apply (@start_refused_when_unconfigured sampleHost startOk
           (initialState emptyBrowser)).
  reflexivity.
Defined.

(** ConfigureApp hands over Asana while tier 2 still holds Linear. *)
Lemma payload_platform_wins_over_tier2_witness :
  let s := initialState completeLinearBrowser in
  navPlatform (Some asanaHandoff) = Some "asana" /\
  @tier2Platform sampleHost s = Some "linear" /\
  selectedTool (session (@resolve sampleHost (Some asanaHandoff) s))
    = Some "asana".
Proof.
  split; [reflexivity|]. split; [vm_compute; reflexivity|].
  apply (@payload_platform_wins_over_tier2 sampleHost (Some asanaHandoff)
           (initialState completeLinearBrowser) "asana" "linear").
  - reflexivity.
  - vm_compute. reflexivity.
  - discriminate.
Defined.

(** The Trello handoff carries a token but no config, while tier 2 holds a
    complete Linear record. *)
Lemma payload_without_config_short_circuits_witness :
  let s := @resolve sampleHost (Some trelloHandoff)
             (initialState completeLinearBrowser) in
  @tier2Platform sampleHost (initialState completeLinearBrowser)
    = Some "linear" /\
  selectedTool (session s) = Some "trello" /\
  isConfigured (session s) = false /\
  platformConfig (session s) = JNull /\
  browser s = completeLinearBrowser /\
  (forall b', session (@resolve sampleHost (Some trelloHandoff)
                         (initialState b')) = session s).
Proof.
  split; [vm_compute; reflexivity|].
  apply (@payload_without_config_short_circuits sampleHost trelloHandoff
           "trello" completeLinearBrowser); reflexivity.
Defined.

(** A truncated Linear record. *)
Lemma unparseable_record_logged_and_skipped_witness :
  let s := initialState damagedLinearBrowser in
  @failsToParse sampleHost LinearRecord s = true /\
  ConsoleError "Error parsing Linear config:"
    ∈ effects (browser (@resolve sampleHost None s)) /\
  sameOutcome (@resolve sampleHost None s)
    (@resolve sampleHost None (withoutRecord LinearRecord s)).
Proof.
  split; [vm_compute; reflexivity|].
  destruct (@unparseable_record_logged_and_skipped sampleHost LinearRecord
              None (initialState damagedLinearBrowser))
    as (Hlog & Hsame & _).
  - vm_compute. reflexivity.
  - vm_compute. reflexivity.
  - split; [exact Hlog | exact Hsame].
Defined.

(** A Linear form whose API key was left empty. *)
Lemma save_with_empty_required_field_is_noop_witness :
  linearForm "" "w1" !! "apiKey" = Some "" /\
  @ConfigurationForm_handleSubmit sampleHost "linear" (linearForm "" "w1")
    readyState = readyState.
Proof.
  split; [vm_compute; reflexivity|].
  apply (@save_with_empty_required_field_is_noop sampleHost "linear" "apiKey"
           (linearForm "" "w1") readyState false false (Resolved tt)
           emptyBrowser).
  - apply list_elem_of_here.
  - vm_compute. reflexivity.
Defined.

(** ** Leaving the recording state *)

Section StopRecording.
Context `{Host}.

Lemma logResult_recorder r s : recorder (logResult r s) = recorder s.
Proof. unfold logResult. by destruct (r_success r). Qed.

Lemma logResult_browser r s : browser (logResult r s) = browser s.
Proof. unfold logResult. by destruct (r_success r). Qed.

Lemma logResults_recorder rs s : recorder (forEachResult rs s) = recorder s.
Proof.
  revert s. induction rs as [|[r|message] rs IH]; intros s; simpl; try done.
  by rewrite IH, logResult_recorder.
Qed.

Lemma logResults_browser rs s : browser (forEachResult rs s) = browser s.
Proof.
  revert s. induction rs as [|[r|message] rs IH]; intros s; simpl; try done.
  by rewrite IH, logResult_browser.
Qed.

(** Handling the gateway's answer touches neither the recorder nor the
    browser: whatever status the dispatch left is the final one. *)
Lemma stopRecording_settle_recorder gw s :
  recorder (stopRecording_settle gw s) = recorder s.
Proof.
  destruct gw as [msg| |msg|[tr rs]]; try done.
  unfold stopRecording_settle. run_handler.
  destruct rs as [rs|]; rewrite ?logResults_recorder;
    destruct tr as [t|]; try done; by destruct (nonEmpty t).
Qed.

Lemma stopRecording_settle_browser gw s :
  browser (stopRecording_settle gw s) = browser s.
Proof.
  destruct gw as [msg| |msg|[tr rs]]; try done.
  unfold stopRecording_settle. run_handler.
  destruct rs as [rs|]; rewrite ?logResults_browser;
    destruct tr as [t|]; try done; by destruct (nonEmpty t).
Qed.

(** The status while the gateway call is in flight is already [idle]. *)
Lemma stopRecording_dispatch_idle audio render s :
  recordingStatus (recorder (stopRecording_dispatch audio render s)) = idle.
Proof. unfold stopRecording_dispatch. run_handler. by case_match. Qed.

(** However the stop action goes, it ends in [idle]. *)
Lemma stopRecording_ends_idle dev gw s :
  recordingStatus (recorder (stopRecording dev gw s)) = idle.
Proof.
  unfold stopRecording. destruct dev as [audio|msg]; [|done].
  unfold andThen. rewrite stopRecording_settle_recorder.
  apply stopRecording_dispatch_idle.
Qed.


(** When the recorder hands over the audio, the tick is cancelled and
    its handle cleared. *)
Lemma stop_success_cancels_tick audio gw s h :
  recordingInterval (recorder s) = Some h ->
  let s' := stopRecording (Resolved audio) gw s in
  (h ∉ timers (browser s')) /\ recordingInterval (recorder s') = None.
Proof.
  intros Hh. unfold stopRecording, andThen.
  rewrite stopRecording_settle_recorder, stopRecording_settle_browser.
  unfold stopRecording_dispatch, andThen.
  change (recordingInterval (recorder (addLog success "Processing..." None
            (setRecordingStatus idle (emit DeviceStop s)))))
    with (recordingInterval (recorder s)).
  rewrite Hh. split; [|reflexivity].
  change (h ∉ timers (browser s) ∖ {[h]}).
  intros [_ Hn]%elem_of_difference. apply Hn. by apply elem_of_singleton.
Qed.

(** When the recorder rejects instead, the status goes to [idle] with
    the tick still live and its handle still held. *)
Lemma stop_failure_keeps_tick msg gw s h :
  recordingInterval (recorder s) = Some h ->
  h ∈ timers (browser s) ->
  let s' := stopRecording (Rejected msg) gw s in
  recordingStatus (recorder s') = idle /\
  h ∈ timers (browser s') /\
  recordingInterval (recorder s') = Some h /\
  recordingTime (recorder (tick h s')) = S (recordingTime (recorder s')).
Proof.
  intros Hh Hin. unfold stopRecording, tick. run_setters.
  repeat split; try done.
  rewrite decide_True by done. simpl. lia.
Qed.
End StopRecording.

(** C3, on the code.  A stop while recording does not pass through
    [processing]: when the audio has been handed over and the request is
    out, the status is already [idle], and it is [idle] once the
    gateway's answer, whatever it is, has been handled. *)
Theorem stop_goes_straight_to_idle :
  recordingStatus (recorder recordingState) = recording /\
  (let pending := @stopRecording_dispatch sampleHost "audio" recordingState
                    (emit DeviceStop recordingState) in
   recordingStatus (recorder pending) = idle /\
   head (effects (browser pending))
     = Some (SendAudio "audio" (Some "trello") (trelloConfig "k" "t" "b"))) /\
  (forall gw,
     recordingStatus
       (recorder (@stopRecording sampleHost (Resolved "audio") gw
                    recordingState)) = idle).
Proof.
  split; [by vm_compute|]. split; [by vm_compute|].
  intros gw. apply stopRecording_ends_idle.
Qed.

(** C4, on the code.  When the recorder rejects the stop, the session
    leaves [recording] with its tick still live: the tick fires while
    idle, and in the next recording two ticks run, so one second adds two
    to the elapsed time. *)
Theorem failed_stop_leaves_tick_running :
  let s1 := recordingState in
  let s2 := @onRecordButtonClick sampleHost stopFails s1 in
  let s3 := @onRecordButtonClick sampleHost startOk (tick 1 s2) in
  (recordingStatus (recorder s1) = recording /\
   recordingInterval (recorder s1) = Some 1 /\
   live 1 s1 = true) /\
  (recordingStatus (recorder s2) = idle /\
   recordingInterval (recorder s2) = Some 1 /\
   live 1 s2 = true /\
   recordingTime (recorder (tick 1 s2)) = 1) /\
  (recordingStatus (recorder s3) = recording /\
   recordingTime (recorder s3) = 0 /\
   recordingInterval (recorder s3) = Some 2 /\
   live 1 s3 = true /\ live 2 s3 = true /\
   recordingTime (recorder (tick 2 (tick 1 s3))) = 2).
Proof. vm_compute. repeat split; reflexivity. Qed.

(** ** Gateway answers, on the scenarios of the specification *)

Example task_created_scenario :
  let answer := Body {| transcript := None;
                        results := Some [ Item {| r_success := true;
                                                  r_operation := Some "create";
                                                  r_task := Some "Buy milk";
                                                  r_error := None |} ] |} in
  let s := @stopRecording sampleHost (Resolved "audio") answer recordingState in
  recordingStatus (recorder s) = idle /\
  (filter (fun e => bool_decide (log_type e = task)) (logs s)
     = [ {| log_id := "id4"; timestamp := "4"; log_type := task;
            message := "Task created: Buy milk";
            details := Some {| transcription := None;
                               taskName := Some "Buy milk";
                               taskStatus := Some "create";
                               dueDate := None |} |} ]).
Proof. vm_compute. done. Qed.

Example unparseable_body_scenario :
  let s := @stopRecording sampleHost (Resolved "audio") BodyUnparseable
             recordingState in
  recordingStatus (recorder s) = idle /\
  (log_type <$> logs s, message <$> logs s)
    = ([error; voice; success; info; info],
       ["Failed to parse backend response as JSON"; "Voice received";
        "Processing..."; "Listening..."; "Connected to Trello"]).
Proof. vm_compute. done. Qed.

(** * Further properties of the code *)

(** ** What the log retains *)

Section LogRetention.
Context `{Host}.

(** X1.  One [addLog] keeps the new entry and the first 49 entries of the
    previous log, nothing else, so the log grows by one until it holds
    50. *)
Theorem updatedLogs_keeps_head_window (e : LogEntry) (prev : list LogEntry) :
  updatedLogs e prev ≡ₚ e :: take 49 prev /\
  length (updatedLogs e prev) = min 50 (S (length prev)).
Proof.
  unfold updatedLogs. split.
  - symmetry. apply (sortBy_perm compareLogs (e :: take 49 prev)).
  - rewrite sortBy_length, length_take. reflexivity.
Qed.

Lemma insertBy_front x l :
  Forall (fun y => (timeKey y <= timeKey x)%Z) l ->
  insertBy compareLogs x l = x :: l.
Proof.
  destruct l as [|y l]; [done|]. intros [Hy _]%Forall_cons. simpl.
  destruct (Z.leb_spec (compareLogs x y) 0) as [?|Hgt]; [done|].
  unfold compareLogs, timeKey in *. lia.
Qed.

Lemma insertBy_back x l :
  Forall (fun y => (timeKey x < timeKey y)%Z) l ->
  insertBy compareLogs x l = l ++ [x].
Proof.
  induction l as [|y l IH]; [done|]. intros [Hy Hl]%Forall_cons. simpl.
  destruct (Z.leb_spec (compareLogs x y) 0) as [Hle|?].
  - unfold compareLogs, timeKey in *. lia.
  - by rewrite IH.
Qed.

(** Sorting a log that is already newest first changes nothing. *)
Lemma sortBy_newestFirst_id l : newestFirst l -> sortBy compareLogs l = l.
Proof.
  unfold newestFirst. induction l as [|y l IH]; [done|].
  intros [Hl Hy]%StronglySorted_inv.
  rewrite sortBy_cons, IH by done. by apply insertBy_front.
Qed.

Lemma newestFirst_take n l : newestFirst l -> newestFirst (take n l).
Proof.
  unfold newestFirst. revert n. induction l as [|y l IH]; intros n Hs.
  - by rewrite take_nil.
  - destruct n as [|n]; simpl; [constructor|].
    apply StronglySorted_inv in Hs as [Hl Hy].
    constructor; [by apply IH | by apply Forall_take].
Qed.

(** X2.  While the clock does not run backwards (the new key is at least
    every key in the log), the new entry goes to the head and the
    retained entries keep their order. *)
Theorem updatedLogs_monotone_clock (e : LogEntry) (prev : list LogEntry) :
  newestFirst prev ->
  Forall (fun x => (timeKey x <= timeKey e)%Z) prev ->
  updatedLogs e prev = e :: take 49 prev.
Proof.
  intros Hs Hk. unfold updatedLogs.
  change (take 50 (e :: prev)) with (e :: take 49 prev).
  rewrite sortBy_cons, sortBy_newestFirst_id by by apply newestFirst_take.
  apply insertBy_front. by apply Forall_take.
Qed.

(** X3.  When the clock has wrapped (the new key is below every key of a
    full log), the new entry is sorted to the end, and the very next
    append evicts it. *)
Theorem updatedLogs_clock_wrap (e : LogEntry) (prev : list LogEntry) :
  newestFirst prev ->
  length prev = 50 ->
  Forall (fun x => (timeKey e < timeKey x)%Z) prev ->
  updatedLogs e prev = take 49 prev ++ [e] /\
  (forall e', e' <> e -> e ∉ updatedLogs e' (updatedLogs e prev)).
Proof.
  intros Hs Hlen Hk.
  assert (updatedLogs e prev = take 49 prev ++ [e]) as Hwrap.
  { unfold updatedLogs.
    change (take 50 (e :: prev)) with (e :: take 49 prev).
    rewrite sortBy_cons, sortBy_newestFirst_id by by apply newestFirst_take.
    apply insertBy_back. by apply Forall_take. }
  split; [done|]. intros e' Hne Hin. rewrite Hwrap in Hin.
  unfold updatedLogs in Hin. rewrite <- sortBy_perm in Hin.
  change (take 50 (e' :: take 49 prev ++ [e]))
    with (e' :: take 49 (take 49 prev ++ [e])) in Hin.
  rewrite take_app_le in Hin by (rewrite length_take; lia).
  rewrite take_take in Hin.
  apply elem_of_cons in Hin as [->|Hin]; [done|].
  apply elem_of_take in Hin as (i & Hi & _).
  apply list_elem_of_lookup_2 in Hi.
  rewrite Forall_forall in Hk. specialize (Hk _ Hi). lia.
Qed.
End LogRetention.

(** Under the sample clock: an entry stamped later than a full log, and
    one stamped earlier. *)
Lemma updatedLogs_monotone_clock_witness :
  @updatedLogs sampleHost (entryAt "x" "70") fullLog
    = entryAt "x" "70" :: take 49 fullLog.
Proof.
  apply (@updatedLogs_monotone_clock sampleHost (entryAt "x" "70") fullLog).
  - replace fullLog with (sortBy (@compareLogs sampleHost) fullLog)
      by (vm_compute; reflexivity).
    apply (@sortBy_newestFirst sampleHost).
  - refine (bool_decide_unpack _ _). vm_compute. exact I.
Defined.

Lemma updatedLogs_clock_wrap_witness :
  length fullLog = 50 /\
  @updatedLogs sampleHost (entryAt "x" "3") fullLog
    = take 49 fullLog ++ [entryAt "x" "3"].
Proof.
  split; [vm_compute; reflexivity|].
  apply (@updatedLogs_clock_wrap sampleHost (entryAt "x" "3") fullLog).
  - replace fullLog with (sortBy (@compareLogs sampleHost) fullLog)
      by (vm_compute; reflexivity).
    apply (@sortBy_newestFirst sampleHost).
  - vm_compute. reflexivity.
  - refine (bool_decide_unpack _ _). vm_compute. exact I.
Defined.

(** ** The recorder over whole runs *)

Section RecorderRuns.
Context `{Host}.






Lemma tick_discipline h s : tickDiscipline s -> tickDiscipline (tick h s).
Proof. unfold tick. by case_decide. Qed.

Lemma startRecording_at_await dev s :
  startRecording dev s = startRecording_resume dev (emit DeviceStart s).
Proof. reflexivity. Qed.

(** A [Click] is the run of its turns with nothing in between. *)
Lemma click_runs_to_completion env s :
  runPhases (clickPhases env) (settled s)
    = settled (onRecordButtonClick env s).
Proof.
  unfold runPhases, clickPhases, settled, onRecordButtonClick.
  cbn [foldl phase]. unfold press. cbn [st pending].
  destruct (isConfigured (session s)); cbn [negb]; [|reflexivity].
  destruct (recordingStatus (recorder s)) eqn:Hst; cbn [app].
  - unfold settle at 1. cbn [pending st lookup]. reflexivity.
  - unfold stopRecording.
    destruct (stopOutcome env) as [blob|msg]; reflexivity.
  - unfold stopRecording.
    destruct (stopOutcome env) as [blob|msg]; reflexivity.
Qed.

Lemma startsPending_app l x :
  startsPending (l ++ [x]) = startsPending l + awaitsStart x.
Proof. induction l as [|y l IH]; simpl; lia. Qed.

Lemma startsPending_delete l i x :
  l !! i = Some x ->
  startsPending l = awaitsStart x + startsPending (delete i l).
Proof.
  revert i. induction l as [|y l IH]; intros [|i] Hl; simplify_eq/=;
    [done|]. rewrite (IH i) by done. lia.
Qed.

Lemma startsPending_insert l i x y :
  l !! i = Some x ->
  startsPending (<[i := y]> l) + awaitsStart x
    = startsPending l + awaitsStart y.
Proof.
  revert i. induction l as [|z l IH]; intros [|i] Hl; simplify_eq/=;
    [lia|]. specialize (IH i Hl). lia.
Qed.

(** What the discipline reads. *)
Lemma tickDiscipline_ext s s' :
  recordingStatus (recorder s') = recordingStatus (recorder s) ->
  recordingInterval (recorder s') = recordingInterval (recorder s) ->
  timers (browser s') = timers (browser s) ->
  tickDiscipline s -> tickDiscipline s'.
Proof. unfold tickDiscipline. by intros -> -> ->. Qed.

Lemma stopRecording_dispatch_recorder audio render s :
  let s' := stopRecording_dispatch audio render s in
  recordingStatus (recorder s') = idle /\
  recordingInterval (recorder s') = None /\
  timers (browser s') =
    match recordingInterval (recorder s) with
    | Some h => timers (browser s) ∖ {[h]}
    | None => timers (browser s)
    end.
Proof.
  unfold stopRecording_dispatch, andThen.
  change (recordingInterval (recorder (addLog success "Processing..." None
            (setRecordingStatus idle s))))
    with (recordingInterval (recorder s)).
  destruct (recordingInterval (recorder s)) eqn:Hi;
    repeat split; try reflexivity; exact Hi.
Qed.


Lemma idle_discipline s :
  recordingStatus (recorder s) = idle ->
  tickDiscipline s ->
  recordingInterval (recorder s) = None /\ timers (browser s) = ∅.
Proof. unfold tickDiscipline. by intros ->. Qed.

Lemma settle_discipline i ans a :
  stopAccepted (Settle i ans) = true ->
  asyncDiscipline a -> asyncDiscipline (settle i ans a).
Proof.
  intros Hstop (Hd & Hone & Hidle). unfold settle.
  destruct (pending a !! i) as [[|render|]|] eqn:Hi; [| | |done].
  - destruct ans as [dev| |]; [|done..].
    pose proof (startsPending_delete _ _ _ Hi) as Hn. simpl in Hn.
    assert (recordingStatus (recorder (st a)) = idle) as Hst
      by (apply Hidle; lia).
    destruct (idle_discipline _ Hst Hd) as [Hint Ht].
    split; [|split; cbn [pending st]; [lia|lia]].
    cbn [st]. destruct dev as [[]|msg].
    + unfold tickDiscipline. simpl. exists (nextTimer (browser (st a))).
      split; [done|]. rewrite Ht. apply (right_id_L ∅ (∪)).
    + by apply (tickDiscipline_ext (st a)).
  - destruct ans as [|[blob|msg]|]; [done| |done|done].
    pose proof (startsPending_insert _ _ _ AwaitsGateway Hi) as Hn.
    simpl in Hn.
    destruct (stopRecording_dispatch_recorder blob render (st a))
      as (Hs & Hint & Ht).
    split; [|split; cbn [pending st]; [lia|done]].
    cbn [st]. unfold tickDiscipline. rewrite Hs, Hint, Ht.
    unfold tickDiscipline in Hd.
    destruct (recordingStatus (recorder (st a))).
    + by destruct Hd as [-> ->].
    + destruct Hd as (h & -> & ->). split; [done|].
      apply difference_diag_L.
    + by destruct Hd as [-> ->].
  - destruct ans as [| |gw]; [done|done|].
    pose proof (startsPending_delete _ _ _ Hi) as Hn. simpl in Hn.
    split; [|split; cbn [pending st]; [lia|]].
    + cbn [st]. apply (tickDiscipline_ext (st a)); [..|done];
        by rewrite ?stopRecording_settle_recorder,
                   ?stopRecording_settle_browser.
    + rewrite stopRecording_settle_recorder. intros; apply Hidle; lia.
Qed.

Lemma press_discipline a :
  negb (pressStarts a && negb (startsPending (pending a) =? 0)) = true ->
  asyncDiscipline a -> asyncDiscipline (press a).
Proof.
  intros Hno (Hd & Hone & Hidle). unfold press, pressStarts in *.
  destruct (isConfigured (session (st a))); cbn [negb andb] in *;
    [|done].
  destruct (recordingStatus (recorder (st a))) eqn:Hst.
  - apply negb_true_iff, negb_false_iff, Nat.eqb_eq in Hno.
    split; [|split]; cbn [st pending]; rewrite ?startsPending_app;
      simpl; [|lia|done].
    by apply (tickDiscipline_ext (st a)).
  - split; [|split]; cbn [st pending]; rewrite ?startsPending_app;
      simpl; rewrite ?Nat.add_0_r; [|done|].
    + by apply (tickDiscipline_ext (st a)).
    + intros Hp. by rewrite (Hidle Hp) in Hst.
  - split; [|split]; cbn [st pending]; rewrite ?startsPending_app;
      simpl; rewrite ?Nat.add_0_r; [|done|].
    + by apply (tickDiscipline_ext (st a)).
    + intros Hp. by rewrite (Hidle Hp) in Hst.
Qed.

Lemma elapse_discipline h a :
  asyncDiscipline a ->
  asyncDiscipline {| st := tick h (st a); pending := pending a |}.
Proof.
  intros (Hd & Hone & Hidle). split; [|split]; cbn [st pending]; [|done|].
  - by apply tick_discipline.
  - intros Hp. unfold tick. case_decide; [|by apply Hidle].
    simpl. by apply Hidle.
Qed.

(** X5.  As long as the recorder never rejects a stop and no start is
    begun while another start still waits for the recorder, the tick
    discipline is kept through every run of presses, settlements and
    ticks, however the suspended handlers interleave otherwise: one live
    interval, held in the ref, exactly while recording.  So a tick that
    arrives outside [recording] finds no live interval and changes
    nothing. *)
Theorem tick_discipline_kept_without_overlapping_starts
  (phases : list Phase) (s : State) :
  tickDiscipline s ->
  forallb stopAccepted phases = true ->
  startsDoNotOverlap phases (settled s) = true ->
  let s' := st (runPhases phases (settled s)) in
  tickDiscipline s' /\
  (forall h, recordingStatus (recorder s') <> recording -> tick h s' = s').
Proof.
  intros Hd Hstop Hser.
  assert (asyncDiscipline (runPhases phases (settled s))) as Hrun.
  { assert (asyncDiscipline (settled s)) as Ha
      by (split; [done|split; simpl; [lia|done]]).
    revert Ha Hser. generalize (settled s). clear Hd.
    induction phases as [|p phases IH]; intros a Ha Hser; [done|].
    simpl in Hstop. apply andb_prop in Hstop as [Hp Hstop].
    cbn [startsDoNotOverlap] in Hser. apply andb_prop in Hser as [Hq Hser].
    simpl. apply IH; [done| |done].
    destruct p as [|i ans|h].
    - by apply press_discipline.
    - by apply settle_discipline.
    - by apply elapse_discipline. }
  cbv zeta. destruct Hrun as (Hrun & _). split; [done|].
  intros h Hst. unfold tickDiscipline in Hrun.
  unfold tick. case_decide as Hin; [|done].
  destruct (recordingStatus (recorder (st (runPhases phases (settled s)))));
    try done;
    destruct Hrun as [_ Ht]; rewrite Ht in Hin; by apply elem_of_empty in Hin.
Qed.

Lemma ticks_count n h s :
  h ∈ timers (browser s) ->
  recordingTime (recorder (run (replicate n (Tick h)) s))
    = recordingTime (recorder s) + n.
Proof.
  revert s. induction n as [|n IH]; intros s Hh; [simpl; lia|].
  change (run (replicate (S n) (Tick h)) s)
    with (run (replicate n (Tick h)) (tick h s)).
  rewrite IH.
  - unfold tick. rewrite decide_True by done. simpl. lia.
  - unfold tick. by rewrite decide_True by done.
Qed.

(** X6.  A start that gets the device resets the elapsed time and arms a
    fresh interval; after [n] ticks of that interval the elapsed time is
    [n]. *)
Theorem start_then_ticks_count (env : Env) (s : State) (n : nat) :
  isConfigured (session s) = true ->
  recordingStatus (recorder s) = idle ->
  startOutcome env = Resolved tt ->
  let s1 := onRecordButtonClick env s in
  let h := nextTimer (browser s) in
  recordingStatus (recorder s1) = recording /\
  recordingInterval (recorder s1) = Some h /\
  recordingTime (recorder (run (replicate n (Tick h)) s1)) = n.
Proof.
  intros Hc Hi Hs. unfold onRecordButtonClick. rewrite Hc, Hi. simpl.
  unfold startRecording. rewrite Hs. simpl.
  repeat split. rewrite ticks_count; [done|]. simpl.
  apply elem_of_union_l. by apply elem_of_singleton.
Qed.

Lemma logResult_logCalls r s : logCalls (logResult r s) = S (logCalls s).
Proof. unfold logResult. by destruct (r_success r). Qed.

Lemma logResults_logCalls rs s :
  logCalls (forEachResult rs s) = logCalls s + loopEntries rs.
Proof.
  revert s. induction rs as [|[r|message] rs IH]; intros s; simpl; try lia.
  rewrite IH, logResult_logCalls. lia.
Qed.

(** X7.  Handling the gateway's answer appends one entry for a transport
    failure, for an unparseable body and for a body that parses to
    [null]; for any other body, one entry if it carries a transcript,
    plus one entry per element of [results], successful or not, up to
    the first element that is [null], which adds one "Failed to send
    audio" entry and ends the loop, so that the elements after it are
    not logged.  It changes neither the session nor the recorder nor the
    browser. *)
Theorem settle_logs_one_entry_per_result (gw : GatewayOutcome) (s : State) :
  let s' := stopRecording_settle gw s in
  logCalls s' = logCalls s + settleEntries gw /\
  session s' = session s /\ recorder s' = recorder s /\ browser s' = browser s.
Proof.
  split; [|by rewrite stopRecording_settle_session,
             stopRecording_settle_recorder, stopRecording_settle_browser].
  destruct gw as [msg| |msg|[tr rs]]; simpl; try lia.
  unfold stopRecording_settle, andThen, when, skip. simpl.
  destruct rs as [rs|]; simpl; rewrite ?logResults_logCalls;
    destruct tr as [t|]; simpl; try lia; destruct (nonEmpty t); simpl; lia.
Qed.
End RecorderRuns.

(** Two presses before the recorder answers: both starts arm an interval,
    the ref keeps the second handle only, and the stop that follows
    leaves the first interval live on an idle page, where its tick still
    advances the elapsed time. *)
Example overlapping_starts_leave_two_intervals :
  let twice := @runPhases sampleHost
                 [Press; Press;
                  Settle 0 (DeviceStarts (Resolved tt));
                  Settle 0 (DeviceStarts (Resolved tt))]
                 (settled readyState) in
  let stopped := @runPhases sampleHost
                   [Press; Settle 0 (DeviceStops (Resolved "audio"))]
                   twice in
  recordingStatus (recorder (st twice)) = recording /\
  recordingInterval (recorder (st twice)) = Some 2 /\
  live 1 (st twice) = true /\ live 2 (st twice) = true /\
  recordingStatus (recorder (st stopped)) = idle /\
  recordingInterval (recorder (st stopped)) = None /\
  live 1 (st stopped) = true /\ live 2 (st stopped) = false /\
  recordingTime (recorder (tick 1 (st stopped))) = 1.
Proof. vm_compute. repeat split. Qed.

(** A session with a second stop pressed before the first has settled and
    a new start while the gateway still answers. *)
Lemma tick_discipline_kept_without_overlapping_starts_witness :
  let phases := [Press; Settle 0 (DeviceStarts (Resolved tt));
                 Elapse 1; Press; Press;
                 Settle 1 (DeviceStops (Resolved "again"));
                 Settle 0 (DeviceStops (Resolved "audio"));
                 Press; Settle 1 (GatewayAnswers BodyUnparseable);
                 Settle 1 (DeviceStarts (Resolved tt))] in
  tickDiscipline (st (@runPhases sampleHost phases (settled readyState))).
Proof.
  apply (@tick_discipline_kept_without_overlapping_starts sampleHost
           [Press; Settle 0 (DeviceStarts (Resolved tt));
            Elapse 1; Press; Press;
            Settle 1 (DeviceStops (Resolved "again"));
            Settle 0 (DeviceStops (Resolved "audio"));
            Press; Settle 1 (GatewayAnswers BodyUnparseable);
            Settle 1 (DeviceStarts (Resolved tt))] readyState).
  - split; reflexivity.
  - reflexivity.
  - vm_compute. reflexivity.
Defined.

Lemma start_then_ticks_count_witness :
  recordingTime
    (recorder (@run sampleHost (replicate 5 (Tick 1))
                 (@onRecordButtonClick sampleHost startOk readyState))) = 5.
Proof.
  apply (@start_then_ticks_count sampleHost startOk readyState 5);
    reflexivity.
Defined.

(** ** Saving, switching and coming back *)

Section Persistence.
Context `{Host}.

Lemma readRecord_ext r a b :
  localStorage (browser a) = localStorage (browser b) ->
  readRecord r a = readRecord r b.
Proof. unfold readRecord, getItem. by intros ->. Qed.

Lemma detectLinear_adopts s config :
  readRecord LinearRecord s = Some config ->
  session (detectLinear s) =
  {| selectedTool := Some "linear"; platformConfig := config;
     isConfigured := true |}.
Proof.
  unfold readRecord, detectLinear. simpl.
  destruct (filled (getItem "linear_config" s)) as [raw|]; [|done].
  by intros ->.
Qed.

Lemma detectAsana_adopts s config :
  readRecord AsanaRecord s = Some config ->
  session (detectAsana s) =
  {| selectedTool := Some "asana"; platformConfig := config;
     isConfigured := true |}.
Proof.
  unfold readRecord, detectAsana. simpl.
  destruct (filled (getItem "asana_config" s)) as [raw|]; [|done].
  by intros ->.
Qed.

Lemma detectLinear_skips s :
  readRecord LinearRecord s = None ->
  sameOutcome (detectLinear s) (detectAsana s).
Proof.
  unfold readRecord, detectLinear. simpl.
  destruct (filled (getItem "linear_config" s)) as [raw|];
    [|by unfold sameOutcome].
  intros ->. by apply detectAsana_sameOutcome.
Qed.

Lemma detectAsana_skips s :
  readRecord AsanaRecord s = None ->
  sameOutcome (detectAsana s) (detectFromCookies s).
Proof.
  unfold readRecord, detectAsana. simpl.
  destruct (filled (getItem "asana_config" s)) as [raw|];
    [|by unfold sameOutcome].
  intros ->. by apply detectFromCookies_sameOutcome.
Qed.

Lemma sameOutcome_trans a b c :
  sameOutcome a b -> sameOutcome b c -> sameOutcome a c.
Proof.
  unfold sameOutcome. intros (?&?&?&?&?&?) (?&?&?&?&?&?).
  repeat split; congruence.
Qed.

(** With no readable durable record the cookies decide. *)
Lemma no_tier2_cookies_decide s :
  tier2Platform s = None ->
  sameOutcome (detectLinear s) (detectFromCookies s).
Proof.
  unfold tier2Platform. intros Ht.
  destruct (readRecord LinearRecord s) eqn:Hl; [done|].
  destruct (readRecord AsanaRecord s) eqn:Ha; [done|].
  eapply sameOutcome_trans; [by apply detectLinear_skips|].
  by apply detectAsana_skips.
Qed.

Lemma tier2Platform_ext a b :
  localStorage (browser a) = localStorage (browser b) ->
  tier2Platform a = tier2Platform b.
Proof.
  intros Hab. unfold tier2Platform.
  by rewrite !(readRecord_ext _ a b Hab).
Qed.

(** With a readable durable record the session depends on localStorage
    alone. *)
Lemma tier2_session_ext a b q :
  localStorage (browser a) = localStorage (browser b) ->
  tier2Platform b = Some q ->
  session (detectLinear a) = session (detectLinear b) /\
  selectedTool (session (detectLinear b)) = Some q /\
  isConfigured (session (detectLinear b)) = true.
Proof.
  intros Hab. unfold tier2Platform.
  destruct (readRecord LinearRecord b) as [cfg|] eqn:Hl.
  - intros [= <-]. rewrite (detectLinear_adopts b cfg) by done.
    rewrite (detectLinear_adopts a cfg) by by rewrite (readRecord_ext _ a b).
    done.
  - destruct (readRecord AsanaRecord b) as [cfg|] eqn:Ha; [|done].
    intros [= <-].
    destruct (detectLinear_skips b Hl) as [-> _].
    assert (readRecord LinearRecord a = None) as Hl'
      by by rewrite (readRecord_ext _ a b).
    destruct (detectLinear_skips a Hl') as [-> _].
    rewrite (detectAsana_adopts b cfg) by done.
    rewrite (detectAsana_adopts a cfg) by by rewrite (readRecord_ext _ a b).
    done.
Qed.

(** What a valid submit of the dashboard form writes. *)
Lemma handleSubmit_valid_logs tool config s :
  isFormValid tool config = true ->
  logCalls (ConfigurationForm_handleSubmit tool config s) = S (logCalls s).
Proof.
  unfold isFormValid, ConfigurationForm_handleSubmit.
  destruct (tool === "trello"); [by intros ->|].
  destruct (tool === "linear"); [by intros ->|].
  destruct (tool === "asana"); [by intros ->|done].
Qed.

(** X8.  The submit button of the dashboard form and its handler agree:
    the handler leaves the state as it is exactly when [isFormValid] is
    false, i.e. exactly when the button is disabled. *)
Theorem handleSubmit_noop_iff_invalid (tool : string)
  (config : gmap string string) (s : State) :
  ConfigurationForm_handleSubmit tool config s = s <->
  isFormValid tool config = false.
Proof.
  split.
  - intros Heq. destruct (isFormValid tool config) eqn:Hv; [|done].
    apply (handleSubmit_valid_logs tool config s) in Hv.
    rewrite Heq in Hv. lia.
  - apply handleSubmit_guard.
Qed.

Lemma isFormValid_forallb tool (config : gmap string string) :
  isFormValid tool config =
  hasVariant tool &&
  forallb (fun k => truthyStr (config !! k)) (requiredFields tool).
Proof.
  unfold isFormValid, requiredFields, hasVariant.
  destruct (tool === "trello"); [|destruct (tool === "linear");
    [|destruct (tool === "asana"); [|done]]];
    simpl; by rewrite ?andb_true_r, ?andb_assoc.
Qed.

(** X9.  The form's validity test is completeness: a form is valid for a
    tool exactly when its contents are a complete config for that tool
    (every field of the tool's interface a non-empty string). *)
Theorem isFormValid_is_completeness (tool : string)
  (config : gmap string string) :
  isFormValid tool config = isComplete (Some tool) (strObj config).
Proof. rewrite isComplete_strObj. apply isFormValid_forallb. Qed.

Lemma submit_record_storage r config s :
  isFormValid (recordPlatform r) config = true ->
  localStorage (browser
    (ConfigurationForm_handleSubmit (recordPlatform r) config s))
  = <[storageKey r := JSON_stringify (strObj config)]>
      (localStorage (browser s)).
Proof.
  destruct r; unfold isFormValid, ConfigurationForm_handleSubmit; simpl;
    by intros ->.
Qed.

(** X10.  Save, then come back: after a valid Linear or Asana save, a
    later activation without a payload restores that platform with the
    saved config as configured, whatever the cookies hold, provided the
    host's [JSON.parse] reads back what [JSON.stringify] wrote and, for
    Asana, no Linear record is readable. *)
Theorem save_then_reload_restores (r : Tier2Record)
  (config : gmap string string) (s : State) :
  isFormValid (recordPlatform r) config = true ->
  nonEmpty (JSON_stringify (strObj config)) = true ->
  JSON_parse (JSON_stringify (strObj config)) = Some (strObj config) ->
  (r = AsanaRecord -> readRecord LinearRecord s = None) ->
  session (resolve None (initialState (browser
             (ConfigurationForm_handleSubmit (recordPlatform r) config s))))
  = {| selectedTool := Some (recordPlatform r);
       platformConfig := strObj config; isConfigured := true |}.
Proof.
  intros Hv Hne Hrt Hlin.
  pose proof (submit_record_storage r config s Hv) as Hls.
  set (s' := ConfigurationForm_handleSubmit (recordPlatform r) config s) in *.
  assert (readRecord r (initialState (browser s')) = Some (strObj config))
    as Hrec.
  { unfold readRecord, getItem. simpl. rewrite Hls, lookup_insert_eq.
    simpl. by rewrite Hne. }
  simpl. destruct r.
  - by apply detectLinear_adopts.
  - assert (readRecord LinearRecord (initialState (browser s')) = None)
      as Hl.
    { unfold readRecord, getItem in *. simpl in *. rewrite Hls.
      rewrite lookup_insert_ne by done. by apply Hlin. }
    destruct (detectLinear_skips _ Hl) as [-> _].
    by apply detectAsana_adopts.
Qed.

(** X11.  A readable Linear record shadows a later Asana save: after a
    valid Asana save, an activation without a payload still resolves to
    Linear with the Linear record's config. *)
Theorem linear_record_shadows_asana_save (config : gmap string string)
  (s : State) (stored : JsValue) :
  isFormValid "asana" config = true ->
  readRecord LinearRecord s = Some stored ->
  session (resolve None (initialState (browser
             (ConfigurationForm_handleSubmit "asana" config s))))
  = {| selectedTool := Some "linear"; platformConfig := stored;
       isConfigured := true |}.
Proof.
  intros Hv Hl.
  pose proof (submit_record_storage AsanaRecord config s Hv) as Hls.
  simpl in Hls. simpl. apply detectLinear_adopts.
  unfold readRecord, getItem in *. simpl in *.
  rewrite Hls, lookup_insert_ne by done. exact Hl.
Qed.
End Persistence.

Section CookieTier.
Context `{Host}.

Lemma truthyStr_formField (config : gmap string string) k :
  truthyStr (config !! k) = true -> nonEmpty (formField config k) = true.
Proof. unfold formField. by destruct (config !! k). Qed.

(** What the cookie tier makes of a browser whose marker says Trello and
    whose three Trello cookies are filled. *)
Lemma detectFromCookies_trello b a t bd :
  cookies b !! "platform" = Some "trello" ->
  filled (cookies b !! "apiKey") = Some a ->
  filled (cookies b !! "token") = Some t ->
  filled (cookies b !! "boardId") = Some bd ->
  session (detectFromCookies (initialState b)) =
  {| selectedTool := Some "trello"; platformConfig := trelloConfig a t bd;
     isConfigured := true |}.
Proof.
  intros Hp Ha Ht Hb. unfold detectFromCookies, Cookies_get. simpl.
  by rewrite Hp, Ha, Ht, Hb.
Qed.

Lemma submit_trello_stores config s :
  isFormValid "trello" config = true ->
  localStorage (browser (ConfigurationForm_handleSubmit "trello" config s))
    = localStorage (browser s) /\
  cookies (browser (ConfigurationForm_handleSubmit "trello" config s))
    = <["platform" := "trello"]>
        (<["boardId" := formField config "boardId"]>
           (<["token" := formField config "token"]>
              (<["apiKey" := formField config "apiKey"]>
                 (cookies (browser s))))).
Proof.
  unfold isFormValid, ConfigurationForm_handleSubmit. simpl. by intros ->.
Qed.

(** X12.  Save Trello, then come back: with no readable durable record,
    a later activation without a payload restores Trello as configured
    from the cookies, with exactly the three Trello fields of the form. *)
Theorem trello_save_then_reload_restores (config : gmap string string)
  (s : State) :
  isFormValid "trello" config = true ->
  tier2Platform s = None ->
  session (resolve None (initialState (browser
             (ConfigurationForm_handleSubmit "trello" config s))))
  = {| selectedTool := Some "trello";
       platformConfig := trelloConfig (formField config "apiKey")
                           (formField config "token")
                           (formField config "boardId");
       isConfigured := true |}.
Proof.
  intros Hv Ht.
  destruct (submit_trello_stores config s Hv) as [Hls Hck].
  set (s' := ConfigurationForm_handleSubmit "trello" config s) in *.
  assert (tier2Platform (initialState (browser s')) = None) as Ht'
    by by rewrite (tier2Platform_ext _ s).
  simpl. destruct (no_tier2_cookies_decide _ Ht') as [-> _].
  unfold isFormValid in Hv. simpl in Hv.
  apply andb_prop in Hv as [[Ha Htk]%andb_prop Hb].
  apply truthyStr_formField in Ha, Htk, Hb.
  apply detectFromCookies_trello; rewrite Hck;
    repeat (rewrite lookup_insert_ne by done);
    rewrite lookup_insert_eq; simpl; by rewrite ?Ha, ?Htk, ?Hb.
Qed.

Lemma switch_stores s :
  localStorage (browser (confirmSwitchApp s)) = localStorage (browser s) /\
  cookies (browser (confirmSwitchApp s)) !! "platform" = None.
Proof.
  split; [done|]. unfold confirmSwitchApp. run_handler.
  apply lookup_delete_eq.
Qed.

(** X13.  Switch, then come back with nothing in tier 2: the cookies are
    gone, so an activation without a payload finds no configuration and
    opens the form with no platform selected. *)
Theorem switch_then_reload_unconfigured (s : State) :
  tier2Platform s = None ->
  let s' := resolve None (initialState (browser (confirmSwitchApp s))) in
  selectedTool (session s') = None /\
  isConfigured (session s') = false /\
  platformConfig (session s') = JNull /\
  showConfigForm (ui s') = true.
Proof.
  intros Ht. destruct (switch_stores s) as [Hls Hp].
  remember (browser (confirmSwitchApp s)) as b eqn:Hb. clear Hb.
  assert (tier2Platform (initialState b) = None) as Ht'
    by by rewrite (tier2Platform_ext _ s).
  simpl. destruct (no_tier2_cookies_decide _ Ht') as (-> & _ & -> & _).
  unfold detectFromCookies, Cookies_get. simpl. by rewrite Hp.
Qed.

(** X14.  Switch, then come back with a readable durable record: the
    activation restores the platform of tier 2 as configured, with the
    same session as an activation before the switch. *)
Theorem switch_then_reload_restores_tier2 (s : State) (q : string) :
  tier2Platform s = Some q ->
  let before := resolve None (initialState (browser s)) in
  let after := resolve None (initialState (browser (confirmSwitchApp s))) in
  session after = session before /\
  selectedTool (session after) = Some q /\
  isConfigured (session after) = true.
Proof.
  intros Ht. destruct (switch_stores s) as [Hls _]. cbv zeta. unfold resolve.
  assert (tier2Platform (initialState (browser s)) = Some q) as Ht'
    by by rewrite (tier2Platform_ext _ s).
  destruct (tier2_session_ext
              (initialState (browser (confirmSwitchApp s)))
              (initialState (browser s)) q Hls Ht') as (Hs & Hq & Hc).
  by rewrite Hs.
Qed.

(** X15.  Select a board, then come back: when the cookies hold the
    Trello marker, key and token and no durable record is readable, the
    board chosen in a Trello session is the [boardId] of the config a
    later activation restores. *)
Theorem board_selection_survives_reload (value : string) (s : State)
  (o : gmap string JsValue) (a t : string) :
  selectedTool (session s) = Some "trello" ->
  platformConfig (session s) = JObj o ->
  is_Some (o !! "apiKey") -> is_Some (o !! "token") ->
  cookies (browser s) !! "platform" = Some "trello" ->
  filled (cookies (browser s) !! "apiKey") = Some a ->
  filled (cookies (browser s) !! "token") = Some t ->
  nonEmpty value = true ->
  tier2Platform s = None ->
  session (resolve None (initialState (browser (handleBoardSelect value s))))
  = {| selectedTool := Some "trello";
       platformConfig := trelloConfig a t value; isConfigured := true |}.
Proof.
  intros Htool Hcfg Hk Htk Hp Ha Ht Hv Ht2.
  assert (browser (handleBoardSelect value s)
          = withCookies (fun m => <["boardId" := value]> m) (browser s))
    as Hb.
  { unfold handleBoardSelect. rewrite Htool, Hcfg. simpl.
    rewrite !bool_decide_eq_true_2 by done. done. }
  rewrite Hb.
  set (b := withCookies (fun m => <["boardId" := value]> m) (browser s)).
  assert (tier2Platform (initialState b) = None) as Ht'
    by by rewrite (tier2Platform_ext _ s).
  simpl. destruct (no_tier2_cookies_decide _ Ht') as [-> _].
  apply detectFromCookies_trello; unfold b; simpl.
  - by rewrite lookup_insert_ne.
  - by rewrite lookup_insert_ne.
  - by rewrite lookup_insert_ne.
  - rewrite lookup_insert_eq. simpl. by rewrite Hv.
Qed.

(** X16.  What the cookie tier adopts is checked: whenever it turns an
    unconfigured session into a configured one, the platform is the one
    the marker cookie names and the config is complete for it. *)
Theorem cookie_tier_adopts_only_complete (s : State) :
  isConfigured (session s) = false ->
  isConfigured (session (detectFromCookies s)) = true ->
  selectedTool (session (detectFromCookies s))
    = filled (Cookies_get "platform" s) /\
  isComplete (selectedTool (session (detectFromCookies s)))
    (platformConfig (session (detectFromCookies s))) = true.
Proof.
  intros Hu. unfold detectFromCookies, noConfiguration.
  destruct (filled (Cookies_get "platform" s)) as [p|];
    [|run_handler; congruence].
  destruct (p === "trello") eqn:Et;
    [|destruct (p === "linear") eqn:El;
      [|destruct (p === "asana") eqn:Ea; [|run_handler; congruence]]];
    repeat case_match; try (run_handler; congruence);
    repeat match goal with
           | E : filled _ = Some _ |- _ => apply filled_Some in E as [_ ?]
           | E : (_ === _) = true |- _ => apply String.eqb_eq in E; subst
           end;
    intros _; run_handler; split; try done.
  - by apply trelloConfig_complete.
  - by apply linearConfig_complete.
  - by apply asanaConfig_complete.
Qed.
End CookieTier.

(** ** From the configuration page to the dashboard *)

Section Handoff.
Context `{Host}.

(** X17.  A ConfigureApp submit with every required field filled, when
    the write to localStorage goes through, stores the form data under
    the app's durable key and navigates to the dashboard with the app and
    the form data; the dashboard activated with that payload is
    configured for that app with exactly that data, whatever else the
    browser holds.  When the write throws, the page reports the error and
    neither succeeds, nor stores anything, nor navigates. *)
Theorem ConfigureApp_submit_configures_dashboard (appId : string)
  (store : Awaited unit) (page : ConfigurePage) (b : Browser)
  (fields : list FieldSpec) :
  appConfigs appId = Some fields ->
  missingFields fields (formData page) = [] ->
  let r := ConfigureApp_handleSubmit appId store page b in
  let payload := {| nav_platform := Some appId; nav_token := None;
                    nav_config := strObj (formData page) |} in
  cookies r.2 = cookies b /\
  isSubmitting r.1 = false /\
  match store with
  | Resolved _ =>
      isSuccess r.1 = true /\
      effects r.2 = Navigate "/dashboard" (Some payload) :: effects b /\
      localStorage r.2 !! (appId +:+ "_config")
        = Some (JSON_stringify (strObj (formData page))) /\
      session (resolve (Some payload) (initialState r.2))
        = {| selectedTool := Some appId;
             platformConfig := strObj (formData page);
             isConfigured := true |}
  | Rejected _ =>
      isSuccess r.1 = isSuccess page /\
      localStorage r.2 = localStorage b /\
      effects r.2 =
        Alert "Failed to save configuration. Please try again."
          :: ConsoleError "Configuration error:" :: effects b
  end.
Proof.
  intros Ha Hm. unfold ConfigureApp_handleSubmit. rewrite Ha, Hm. simpl.
  unfold appConfigs in Ha.
  destruct (appId === "linear") eqn:El.
  - apply String.eqb_eq in El. subst.
    destruct store; simpl; repeat split; try done. apply lookup_insert_eq.
  - destruct (appId === "asana") eqn:Ea; [|done].
    apply String.eqb_eq in Ea. subst.
    destruct store; simpl; repeat split; try done. apply lookup_insert_eq.
Qed.
End Handoff.

(** ** The round trips on examples *)

(** A Linear save over the sample host, whose parser reads back what its
    serializer writes. *)
Lemma save_then_reload_restores_witness :
  session (@resolve sampleHost None (initialState (browser
             (@ConfigurationForm_handleSubmit sampleHost "linear"
                (linearForm "k2" "w2") readyState))))
  = {| selectedTool := Some "linear";
       platformConfig := strObj (linearForm "k2" "w2");
       isConfigured := true |}.
Proof.
  apply (@save_then_reload_restores sampleHost LinearRecord
           (linearForm "k2" "w2") readyState).
  - vm_compute. reflexivity.
  - vm_compute. reflexivity.
  - vm_compute. reflexivity.
  - discriminate.
Defined.

(** An Asana save in a browser that still holds the Linear record. *)
Lemma linear_record_shadows_asana_save_witness :
  selectedTool (session (@resolve sampleHost None (initialState (browser
     (@ConfigurationForm_handleSubmit sampleHost "asana"
        (asanaForm "pat" "p1") (initialState completeLinearBrowser))))))
  = Some "linear".
Proof.
  rewrite (@linear_record_shadows_asana_save sampleHost
             (asanaForm "pat" "p1") (initialState completeLinearBrowser)
             (linearConfig "k1" "w1")).
  - reflexivity.
  - vm_compute. reflexivity.
  - vm_compute. reflexivity.
Defined.

Lemma trello_save_then_reload_restores_witness :
  session (@resolve sampleHost None (initialState (browser
             (@ConfigurationForm_handleSubmit sampleHost "trello"
                (trelloForm "k" "t" "b") readyState))))
  = {| selectedTool := Some "trello";
       platformConfig := trelloConfig "k" "t" "b"; isConfigured := true |}.
Proof.
  apply (@trello_save_then_reload_restores sampleHost
           (trelloForm "k" "t" "b") readyState).
  - vm_compute. reflexivity.
  - vm_compute. reflexivity.
Defined.

(** A session configured from the cookies alone, switched away from. *)
Lemma switch_then_reload_unconfigured_witness :
  let s := @resolve sampleHost None (initialState linearCookieBrowser) in
  isConfigured (session s) = true /\
  isConfigured
    (session (@resolve sampleHost None
                (initialState (browser (@confirmSwitchApp sampleHost s)))))
  = false.
Proof.
  split; [vm_compute; reflexivity|].
  apply (@switch_then_reload_unconfigured sampleHost
           (@resolve sampleHost None (initialState linearCookieBrowser))).
  vm_compute. reflexivity.
Defined.

(** A session configured from the durable Linear record, switched away
    from. *)
Lemma switch_then_reload_restores_tier2_witness :
  let s := @resolve sampleHost None (initialState completeLinearBrowser) in
  selectedTool
    (session (@resolve sampleHost None
                (initialState (browser (@confirmSwitchApp sampleHost s)))))
  = Some "linear".
Proof.
  apply (@switch_then_reload_restores_tier2 sampleHost
           (@resolve sampleHost None (initialState completeLinearBrowser))
           "linear").
  vm_compute. reflexivity.
Defined.

(** A Trello session from the cookies in which board [b9] is chosen. *)
Lemma board_selection_survives_reload_witness :
  let s := @resolve sampleHost None (initialState trelloCookieBrowser) in
  session (@resolve sampleHost None
             (initialState (browser (handleBoardSelect "b9" s))))
  = {| selectedTool := Some "trello";
       platformConfig := trelloConfig "k" "t" "b9"; isConfigured := true |}.
Proof.
  apply (@board_selection_survives_reload sampleHost "b9"
           (@resolve sampleHost None (initialState trelloCookieBrowser))
           (JStr <$> trelloForm "k" "t" "b0") "k" "t").
  - vm_compute. reflexivity.
  - vm_compute. reflexivity.
  - vm_compute. eexists. reflexivity.
  - vm_compute. eexists. reflexivity.
  - vm_compute. reflexivity.
  - vm_compute. reflexivity.
  - vm_compute. reflexivity.
  - reflexivity.
  - vm_compute. reflexivity.
Defined.

Lemma cookie_tier_adopts_only_complete_witness :
  let s := @detectFromCookies sampleHost (initialState trelloCookieBrowser) in
  selectedTool (session s) = Some "trello" /\
  isComplete (selectedTool (session s)) (platformConfig (session s)) = true.
Proof.
  destruct (@cookie_tier_adopts_only_complete sampleHost
              (initialState trelloCookieBrowser)) as [Ht Hc].
  - reflexivity.
  - vm_compute. reflexivity.
  - split; [|exact Hc]. rewrite Ht. vm_compute. reflexivity.
Defined.

(** The Linear page submitted with both fields filled. *)
Lemma ConfigureApp_submit_configures_dashboard_witness :
  let page := {| formData := linearForm "k2" "w2"; isSubmitting := true;
                 isSuccess := false |} in
  let r := @ConfigureApp_handleSubmit sampleHost "linear" (Resolved tt) page
             emptyBrowser in
  session (@resolve sampleHost
             (Some {| nav_platform := Some "linear"; nav_token := None;
                      nav_config := strObj (linearForm "k2" "w2") |})
             (initialState r.2))
  = {| selectedTool := Some "linear";
       platformConfig := strObj (linearForm "k2" "w2");
       isConfigured := true |}.
Proof.
  eapply (@ConfigureApp_submit_configures_dashboard sampleHost "linear"
            (Resolved tt)
            {| formData := linearForm "k2" "w2"; isSubmitting := true;
               isSuccess := false |} emptyBrowser).
  - reflexivity.
  - vm_compute. reflexivity.
Defined.

(** ** Editing the form *)

Lemma initialFormConfig_empty tool k :
  truthyStr (initialFormConfig tool !! k) = false.
Proof.
  unfold initialFormConfig.
  destruct (tool === "trello"); [|destruct (tool === "linear")];
    repeat (rewrite lookup_insert; case_decide; [done|]);
    by rewrite lookup_empty.
Qed.

Lemma typedForm_lookup tool edits k :
  truthyStr (typedForm tool edits !! k) = nonEmpty (lastTyped k edits).
Proof.
  unfold typedForm, lastTyped.
  induction edits as [|[f v] edits IH] using rev_ind.
  - simpl. apply initialFormConfig_empty.
  - rewrite foldl_app, reverse_app. simpl. unfold handleInputChange at 1.
    simpl. rewrite lookup_insert.
    destruct (String.eqb_spec f k) as [->|Hne].
    + by rewrite decide_True.
    + by rewrite decide_False.
Qed.

(** X18.  A form is valid exactly when the tool has a variant and the
    last value typed into each of its required fields is non-empty:
    a fresh form is never valid, earlier keystrokes and other fields do
    not matter, and clearing a required field makes the form invalid
    again. *)
Theorem typedForm_valid_iff_last_values (tool : string)
  (edits : list (string * string)) :
  isFormValid tool (typedForm tool edits) =
  hasVariant tool &&
  forallb (fun k => nonEmpty (lastTyped k edits)) (requiredFields tool).
Proof.
  rewrite isFormValid_forallb. f_equal.
  induction (requiredFields tool) as [|k l IH]; [done|].
  cbn [forallb]. by rewrite typedForm_lookup, IH.
Qed.

(** ** The elapsed-time display *)

Lemma bounded_check (P : nat -> bool) (n : nat) :
  forallb P (seq 0 n) = true -> forall i, i < n -> P i = true.
Proof.
  intros Hall i Hi. rewrite forallb_forall in Hall. apply Hall.
  apply in_seq. lia.
Qed.

Lemma pad2_length n :
  n < 100 -> String.length (padStart 2 "0" (pretty n)) = 2.
Proof.
  intros Hn.
  apply Nat.eqb_eq.
  apply (bounded_check
           (fun i => String.length (padStart 2 "0" (pretty i)) =? 2) 100);
    [by vm_compute|done].
Qed.

Lemma pad2_inj a b :
  a < 100 -> b < 100 ->
  padStart 2 "0" (pretty a) = padStart 2 "0" (pretty b) -> a = b.
Proof.
  intros Ha Hb Heq.
  pose proof (bounded_check
    (fun i => forallb
       (fun j => implb (padStart 2 "0" (pretty i) === padStart 2 "0" (pretty j))
                       (i =? j)) (seq 0 100)) 100) as Hall.
  specialize (Hall ltac:(by vm_compute) a Ha).
  apply (bounded_check _ 100 Hall) in Hb. simpl in Hb.
  rewrite Heq, String.eqb_refl in Hb. by apply Nat.eqb_eq.
Qed.

Lemma append_length s t :
  String.length (s +:+ t) = String.length s + String.length t.
Proof. induction s as [|c s IH]; simpl; [done|]. by rewrite IH. Qed.

Lemma append_inj_same_length s s' t t' :
  String.length s = String.length s' ->
  s +:+ t = s' +:+ t' -> s = s' /\ t = t'.
Proof.
  revert s'. induction s as [|c s IH]; intros [|c' s'] Hlen Heq;
    simpl in *; try done.
  injection Heq as -> Heq. injection Hlen as Hlen.
  destruct (IH s' Hlen Heq) as [-> ->]. done.
Qed.

(** X19.  Below one hundred minutes the dashboard shows the elapsed time
    in exactly five characters, and different times show differently. *)
Theorem formatTime_fixed_width_injective (a b : nat) :
  a < 60 * 100 -> b < 60 * 100 ->
  String.length (formatTime a) = 5 /\
  (formatTime a = formatTime b -> a = b).
Proof.
  intros Ha Hb.
  assert (forall n, n < 60 * 100 -> n / 60 < 100 /\ n mod 60 < 100)
    as Hbound.
  { intros n Hn. split.
    - by apply Nat.Div0.div_lt_upper_bound.
    - pose proof (Nat.mod_upper_bound n 60). lia. }
  destruct (Hbound a Ha) as [Hma Hsa], (Hbound b Hb) as [Hmb Hsb].
  unfold formatTime. split.
  - rewrite !append_length, !pad2_length by done. reflexivity.
  - intros Heq.
    apply append_inj_same_length in Heq as [Hm Heq];
      [|by rewrite !pad2_length].
    injection Heq as Hs.
    apply pad2_inj in Hm, Hs; try done.
    transitivity (60 * (b / 60) + b mod 60);
      [|symmetry; apply Nat.div_mod_eq].
    rewrite (Nat.div_mod_eq a 60) at 1.
    f_equal; [f_equal; exact Hm | exact Hs].
Qed.

Example formatTime_examples :
  formatTime 0 = "00:00" /\ formatTime 75 = "01:15" /\
  formatTime (60 * 100 - 1) = "99:59" /\
  formatTime (60 * 100) = "100:00" /\
  formatTimeShort 75 = "1:15".
Proof. vm_compute. done. Qed.

Lemma formatTime_fixed_width_injective_witness :
  String.length (formatTime 75) = 5.
Proof.
  apply (formatTime_fixed_width_injective 75 75); lia.
Defined.

(** ** The Dashboard page *)

Section DashboardPage.
Context `{Host}.

Lemma truthyStr_filled (o : option string) :
  truthyStr o = match filled o with Some _ => true | None => false end.
Proof. destruct o as [v|]; [|done]. simpl. by destruct (nonEmpty v). Qed.

(** X20.  When the page's own detection ends on the UnifiedDashboard
    screen and no durable record is damaged, the UnifiedDashboard it
    mounts resolves, from the same payload and browser, to the platform
    the page detected. *)
Theorem page_and_dashboard_agree (state : option NavState)
  (trelloToken : option string) (b : Browser) :
  let p := (Dashboard.detectPlatform state trelloToken b
              Dashboard.initialPage).1 in
  Dashboard.render p = Dashboard.UnifiedDashboardScreen ->
  failsToParse LinearRecord (initialState b) = false ->
  failsToParse AsanaRecord (initialState b) = false ->
  selectedTool (session (resolve state (initialState b)))
    = Some (Dashboard.platform p).
Proof.
  unfold Dashboard.detectPlatform, failsToParse, getItem. simpl.
  destruct (navPlatform state) as [pf|] eqn:Hn; simpl.
  { intros _ _ _. destruct state as [st|]; [|done]. simpl in Hn.
    unfold resolve. rewrite Hn. run_handler.
    by destruct (truthy (nav_config st)). }
  assert (resolve state (initialState b) = detectLinear (initialState b))
    as ->.
  { unfold resolve. destruct state as [st|]; [|done].
    simpl in Hn. by rewrite Hn. }
  destruct (filled (localStorage b !! "linear_config")) as [raw|] eqn:Hl;
    simpl.
  { intros _ Hp _. destruct (JSON_parse raw) as [cfg|] eqn:Hparse; [|done].
    rewrite (detectLinear_adopts _ cfg); [done|].
    unfold readRecord, getItem. simpl. by rewrite Hl. }
  assert (readRecord LinearRecord (initialState b) = None) as Hlin
    by (unfold readRecord, getItem; simpl; by rewrite Hl).
  destruct (detectLinear_skips _ Hlin) as [-> _].
  destruct (filled (localStorage b !! "asana_config")) as [raw|] eqn:Ha;
    simpl.
  { intros _ _ Hp. destruct (JSON_parse raw) as [cfg|] eqn:Hparse; [|done].
    rewrite (detectAsana_adopts _ cfg); [done|].
    unfold readRecord, getItem. simpl. by rewrite Ha. }
  destruct (filled trelloToken); simpl; [done|].
  by destruct (filled (localStorage b !! "trello_token")).
Qed.

(** X21.  [fetchTrelloBoards] always ends with [isLoading] false.  It
    sends the request exactly when the key and a token (the given one or
    the cookie) are present, and the page then shows the error screen
    exactly when that request did not come back [ok] with an array;
    missing credentials never lead to the error screen. *)
Theorem fetchTrelloBoards_loading_and_error_screen
  (apiKey token : option string) (response : Dashboard.BoardsResponse)
  (b : Browser) (p : Dashboard.Page) :
  let r := Dashboard.fetchTrelloBoards apiKey token response b p in
  Dashboard.isLoading r.1 = false /\
  existsb isFetch r.2 = credentialsPresent apiKey token b /\
  (Dashboard.render r.1 = Dashboard.ErrorScreen <->
   credentialsPresent apiKey token b && negb (isOk response) = true).
Proof.
  unfold Dashboard.fetchTrelloBoards, credentialsPresent.
  rewrite !truthyStr_filled.
  destruct (filled apiKey) as [key|];
    [destruct (filled (Dashboard.realToken token b)) as [tk|]|].
  - destruct response as [m|m|data]; simpl; try done.
    split; [by destruct data|]. split; [done|].
    unfold Dashboard.render.
    destruct data as [|first rest]; simpl;
      by destruct (negb (Dashboard.platform p === "trello")).
  - simpl. repeat split; try done. unfold Dashboard.render. simpl.
    by destruct (negb (Dashboard.platform p === "trello")).
  - simpl. repeat split; try done. unfold Dashboard.render. simpl.
    by destruct (negb (Dashboard.platform p === "trello")).
Qed.

(** X22.  After a successful fetch the page lists the boards of the
    answer in the answer's order, with no error, and if there is any
    board the first one is selected, whatever was selected before, so
    the selection is always one of the listed boards. *)
Theorem fetchTrelloBoards_success_selects_listed_board
  (apiKey token : option string) (first : Dashboard.RawBoard)
  (rest : list Dashboard.RawBoard) (b : Browser) (p : Dashboard.Page) :
  credentialsPresent apiKey token b = true ->
  let r := Dashboard.fetchTrelloBoards apiKey token
             (Dashboard.Ok (first :: rest)) b p in
  Dashboard.id <$> Dashboard.boards r.1
    = Dashboard.raw_id <$> (first :: rest) /\
  Dashboard.selectedBoard r.1 = Dashboard.raw_id first /\
  Dashboard.selectedBoard r.1 ∈ Dashboard.id <$> Dashboard.boards r.1 /\
  Dashboard.trelloBoardError r.1 = None /\
  Dashboard.errorText r.1 = "".
Proof.
  unfold Dashboard.fetchTrelloBoards, credentialsPresent.
  rewrite !truthyStr_filled.
  destruct (filled apiKey) as [key|]; [|done].
  destruct (filled (Dashboard.realToken token b)) as [tk|]; [|done].
  intros _. simpl. repeat split; try done.
  - f_equal. by rewrite <- list_fmap_compose.
  - apply list_elem_of_here.
Qed.

(** X23.  After a logout in which [clearTrelloToken] does not throw,
    neither durable record is left, whatever [clearTrelloToken] (a
    function of lib/supabase) left of the browser.  The statements of
    [handleLogout] itself remove those two records and nothing else:
    every cookie and every other localStorage key is as
    [clearTrelloToken] left it.  So an activation of UnifiedDashboard
    without a payload is decided by the cookies that [clearTrelloToken]
    left, and the page, given no Trello token from either source,
    redirects to the app selection. *)
Theorem logout_forgets_durable_records (cleared b : Browser) :
  let b' := (Dashboard.handleLogout (Resolved cleared) b).1 in
  tier2Platform (initialState b') = None /\
  sameOutcome (resolve None (initialState b'))
    (detectFromCookies (initialState b')) /\
  cookies b' = cookies cleared /\
  (forall k, k <> "linear_config" -> k <> "asana_config" ->
             localStorage b' !! k = localStorage cleared !! k) /\
  (forall trelloToken p,
     filled trelloToken = None ->
     filled (localStorage b' !! "trello_token") = None ->
     Dashboard.detectPlatform None trelloToken b' p
       = (p, [CallNavigate "/select-app" None])).
Proof.
  cbv zeta. unfold Dashboard.handleLogout. cbn [fst].
  remember (withLocalStorage
              (fun m => delete "asana_config" (delete "linear_config" m))
              cleared) as b' eqn:Hb'.
  assert (localStorage b' !! "linear_config" = None) as Hl
    by (rewrite Hb'; simpl; rewrite lookup_delete_ne by done;
        apply lookup_delete_eq).
  assert (localStorage b' !! "asana_config" = None) as Ha
    by (rewrite Hb'; simpl; apply lookup_delete_eq).
  assert (cookies b' = cookies cleared) as Hc by by rewrite Hb'.
  assert (forall k, k <> "linear_config" -> k <> "asana_config" ->
                    localStorage b' !! k = localStorage cleared !! k) as Hf
    by (intros k Hk1 Hk2; rewrite Hb'; simpl;
        by rewrite !lookup_delete_ne by done).
  clear Hb'.
  assert (tier2Platform (initialState b') = None) as Ht.
  { unfold tier2Platform, readRecord, getItem. simpl. by rewrite Hl, Ha. }
  split; [done|]. split; [by apply no_tier2_cookies_decide|].
  split; [done|]. split; [done|]. intros tk p Htk Hleg.
  unfold Dashboard.detectPlatform. simpl. by rewrite Hl, Ha, Htk, Hleg.
Qed.
End DashboardPage.

(** ** Handoffs and the board catalogue *)

Section Catalogue.
Context `{Host}.


(** X25.  After an activation that configures Trello from the cookies,
    the board request carries exactly the key and the token of the
    cookies. *)
Theorem cookie_session_requests_boards_with_cookie_credentials
  (b : Browser) (a t bd : string) (answer : BoardsAnswer) :
  tier2Platform (initialState b) = None ->
  cookies b !! "platform" = Some "trello" ->
  filled (cookies b !! "apiKey") = Some a ->
  filled (cookies b !! "token") = Some t ->
  filled (cookies b !! "boardId") = Some bd ->
  exists c,
    fetchBoards answer (resolve None (initialState b))
      = Some (c, Some (JStr a, JStr t)).
Proof.
  intros Ht2 Hp Ha Ht Hb.
  assert (session (resolve None (initialState b)) =
          {| selectedTool := Some "trello";
             platformConfig := trelloConfig a t bd;
             isConfigured := true |}) as Hs.
  { simpl. destruct (no_tier2_cookies_decide _ Ht2) as [-> _].
    by apply detectFromCookies_trello. }
  unfold fetchBoards. rewrite Hs. simpl.
  rewrite !bool_decide_eq_true_2;
    [|rewrite lookup_fmap; by simplify_map_eq..].
  simpl. rewrite !lookup_fmap. simplify_map_eq. simpl. by eexists.
Qed.

Lemma appSelection_handoff appId trelloToken oauth b st :
  CallNavigate "/dashboard" (Some st)
    ∈ (handleAppSelection appId trelloToken oauth b).2 ->
  exists tk, nonEmpty tk = true /\
    st = {| nav_platform := Some "trello"; nav_token := Some tk;
            nav_config := JUndefined |}.
Proof.
  unfold handleAppSelection.
  destruct (appId === "trello"); simpl.
  - destruct (filled (match filled trelloToken with
                      | Some tk => Some tk
                      | None => cookies b !! "token"
                      end)) as [tk|] eqn:Hf.
    + apply filled_Some in Hf as [_ Hne]. simpl.
      intros [[= ->]|[]%elem_of_nil]%elem_of_cons. eauto.
    + destruct oauth; simpl; intros Hin;
        repeat (apply elem_of_cons in Hin as [Hin|Hin]; [done|]);
        by apply elem_of_nil in Hin.
  - intros [?|[]%elem_of_nil]%elem_of_cons. done.
Qed.

Lemma trelloAuth_handoff authUrl token error page b st :
  CallNavigate "/dashboard" (Some st)
    ∈ (trelloAuthEffect authUrl token error page b).2 ->
  exists tk, nonEmpty tk = true /\
    st = {| nav_platform := Some "trello"; nav_token := Some tk;
            nav_config := JUndefined |}.
Proof.
  unfold trelloAuthEffect.
  destruct (filled token) as [tk|] eqn:Hf.
  - apply filled_Some in Hf as [_ Hne]. simpl.
    intros [[= ->]|[]%elem_of_nil]%elem_of_cons. eauto.
  - destruct (filled error); simpl; intros Hin;
      repeat (apply elem_of_cons in Hin as [Hin|Hin]; [done|]);
      by apply elem_of_nil in Hin.
Qed.

(** X26.  Every navigation to the dashboard that AppSelection or
    TrelloAuth issues names Trello and carries a token but no config.
    The Dashboard page detects Trello from it; a UnifiedDashboard
    activated with it selects Trello, stays unconfigured whatever the
    browser holds, and requests no boards. *)
Theorem token_handoff_leaves_dashboard_unconfigured
  (appId authUrl : string) (trelloToken token error : option string)
  (oauth : Awaited unit) (page : AuthPage) (b b0 : Browser) (st : NavState) :
  CallNavigate "/dashboard" (Some st)
    ∈ (handleAppSelection appId trelloToken oauth b).2 \/
  CallNavigate "/dashboard" (Some st)
    ∈ (trelloAuthEffect authUrl token error page b0).2 ->
  nav_platform st = Some "trello" /\
  truthyStr (nav_token st) = true /\
  nav_config st = JUndefined /\
  (forall b' tk' p answer,
     let s := resolve (Some st) (initialState b') in
     Dashboard.platform (Dashboard.detectPlatform (Some st) tk' b' p).1
       = "trello" /\
     selectedTool (session s) = Some "trello" /\
     isConfigured (session s) = false /\
     fetchBoards answer s
       = Some ({| trelloBoards := []; trelloBoardError := None |}, None)).
Proof.
  intros Hin.
  assert (exists tk, nonEmpty tk = true /\
            st = {| nav_platform := Some "trello"; nav_token := Some tk;
                    nav_config := JUndefined |}) as (tk & Hne & ->).
  { destruct Hin as [Hin|Hin];
      eauto using appSelection_handoff, trelloAuth_handoff. }
  simpl. repeat split; done.
Qed.
End Catalogue.

(** The Asana handoff of ConfigureApp in a browser that holds the Asana
    record. *)
Lemma page_and_dashboard_agree_witness :
  Dashboard.platform
    (Dashboard.detectPlatform None None asanaOnlyBrowser
       Dashboard.initialPage).1 = "asana" /\
  selectedTool (session (@resolve sampleHost None
                           (initialState asanaOnlyBrowser)))
    = Some "asana".
Proof.
  split; [vm_compute; reflexivity|].
  apply (@page_and_dashboard_agree sampleHost None None asanaOnlyBrowser).
  - vm_compute. reflexivity.
  - vm_compute. reflexivity.
  - vm_compute. reflexivity.
Defined.

(** Two boards come back, the second without [lists]. *)
Lemma fetchTrelloBoards_success_selects_listed_board_witness :
  let first := {| Dashboard.raw_id := "b1"; Dashboard.raw_name := "Roadmap";
                  Dashboard.raw_url := "u1";
                  Dashboard.raw_lists := Some [] |} in
  let second := {| Dashboard.raw_id := "b2"; Dashboard.raw_name := "Bugs";
                   Dashboard.raw_url := "u2";
                   Dashboard.raw_lists := None |} in
  Dashboard.selectedBoard
    (Dashboard.fetchTrelloBoards (Some "key") (Some "undefined")
       (Dashboard.Ok [first; second]) trelloCookieBrowser
       (Dashboard.setSelectedBoard "b2" Dashboard.initialPage)).1 = "b1".
Proof.
  apply (fetchTrelloBoards_success_selects_listed_board (Some "key")
           (Some "undefined")).
  vm_compute. reflexivity.
Defined.


Lemma cookie_session_requests_boards_with_cookie_credentials_witness :
  exists c,
    fetchBoards AnswerOther
      (@resolve sampleHost None (initialState trelloCookieBrowser))
    = Some (c, Some (JStr "k", JStr "t")).
Proof.
  apply (@cookie_session_requests_boards_with_cookie_credentials sampleHost
           trelloCookieBrowser "k" "t" "b0" AnswerOther);
    vm_compute; reflexivity.
Defined.

(** AppSelection finds the token in the cookie. *)
Lemma token_handoff_leaves_dashboard_unconfigured_witness :
  let st := {| nav_platform := Some "trello"; nav_token := Some "t";
               nav_config := JUndefined |} in
  (handleAppSelection "trello" None (Resolved tt) trelloCookieBrowser).2
    = [CallNavigate "/dashboard" (Some st)] /\
  isConfigured
    (session (@resolve sampleHost (Some st)
                (initialState completeLinearBrowser))) = false.
Proof.
  split; [vm_compute; reflexivity|].
  eapply (@token_handoff_leaves_dashboard_unconfigured sampleHost "trello"
            "" None None None (Resolved tt)
            {| authStatus := initiating; errorMessage := "" |}
            trelloCookieBrowser emptyBrowser
            {| nav_platform := Some "trello"; nav_token := Some "t";
               nav_config := JUndefined |}).
  - left. vm_compute. apply list_elem_of_here.
  - exact None.
  - exact Dashboard.initialPage.
  - exact AnswerOther.
Defined.
